(** * make-pngs.py: batch conversion of Aseprite files to PNG

    A shallow embedding of [src/make-pngs.py].  The script scans one
    directory for [*.ase] files, runs the external [aseprite] command once
    per file, checks that the PNG appeared, counts successes and failures,
    prints a summary and exits with 0 or 1.

    The file system, the external process and the terminal are effects.
    They are modelled by an abstract world (an [OS] interface), a state
    [Sys] threaded through a small state monad, and a ghost log of the
    attempts made, so that what the script did can be stated. *)

From Stdlib Require Import ZArith List String Ascii Bool Lia DecimalString.
Import ListNotations.

Local Open Scope string_scope.
Local Open Scope list_scope.
Local Open Scope Z_scope.

(** ** Strings *)

Module Str.

(** An f-string is the concatenation of its pieces. *)
Definition f (pieces : list string) : string := String.concat "" pieces.

(** [str(n)] for a Python [int]. *)
Definition of_Z (n : Z) : string := NilZero.string_of_int (Z.to_int n).

(** [s * n]. *)
Fixpoint mul (s : string) (n : nat) : string :=
  match n with
  | O => ""
  | S n' => String.append s (mul s n')
  end.

(** [s.endswith(sfx)]. *)
Definition endswith (s sfx : string) : bool :=
  let n := String.length s in
  let k := String.length sfx in
  (k <=? n)%nat && (substring (n - k) k s =? sfx)%string.

(** [s.startswith(pre)]. *)
Definition startswith (s pre : string) : bool := String.prefix pre s.

(** [s.rfind(c)]: index of the last occurrence of [c], [None] for -1. *)
Fixpoint rfind (c : ascii) (s : string) : option nat :=
  match s with
  | EmptyString => None
  | String a s' =>
      match rfind c s' with
      | Some i => Some (S i)
      | None => if Ascii.eqb a c then Some O else None
      end
  end.

(** [s.split(c)]: never empty, [split c "" = [""]]. *)
Fixpoint split (c : ascii) (s : string) : list string :=
  match s with
  | EmptyString => [EmptyString]
  | String a s' =>
      if Ascii.eqb a c then EmptyString :: split c s'
      else match split c s' with
           | h :: t => String a h :: t
           | [] => [String a EmptyString]
           end
  end.

(** [s[:k]] and [s[k:]]. *)
Definition take (k : nat) (s : string) : string := substring 0 k s.
Definition drop (k : nat) (s : string) : string :=
  substring k (String.length s - k) s.

End Str.

Arguments Str.f : simpl never.
Arguments Str.of_Z : simpl never.
Arguments Str.mul : simpl never.

(** ** Paths: the pure part of [pathlib] the script uses (POSIX flavour) *)

Record Path : Type := mkPath {
  root : string;          (* [""], ["/"] or ["//"] *)
  parts : list string     (* the components after the root *)
}.

Module Pathlib.

Definition posix_root (s : string) : string :=
  if Str.startswith s "/" then
    if Str.startswith s "//" && negb (Str.startswith s "///") then "//" else "/"
  else "".

Definition keep_part (c : string) : bool :=
  negb ((c =? "")%string || (c =? ".")%string).

(** [Path(s)]. *)
Definition of_string (s : string) : Path :=
  {| root := posix_root s;
     parts := filter keep_part (Str.split "/" s) |}.

(** [str(p)]. *)
Definition str (p : Path) : string :=
  match root p, parts p with
  | EmptyString, [] => "."
  | r, ps => String.append r (String.concat "/" ps)
  end.

(** [p.name]: the last component, [""] when there is none. *)
Definition name (p : Path) : string := last (parts p) "".

(** [p.parent]. *)
Definition parent (p : Path) : Path :=
  {| root := root p; parts := removelast (parts p) |}.

(** The suffix of a file name: from its last dot on, unless that dot is
    the first or the last character of the name. *)
Definition name_suffix (n : string) : string :=
  match Str.rfind "." n with
  | Some i =>
      if (0 <? i)%nat && (S i <? String.length n)%nat
      then Str.drop i n else ""
  | None => ""
  end.

(** [p.suffix] and [p.stem]. *)
Definition suffix (p : Path) : string := name_suffix (name p).

Definition name_stem (n : string) : string :=
  Str.take (String.length n - String.length (name_suffix n)) n.

Definition stem (p : Path) : string := name_stem (name p).

(** The file name [with_suffix] builds: the new suffix is appended when
    the name has none, and takes the old one's place otherwise. *)
Definition name_with_suffix (n sfx : string) : string :=
  String.append (name_stem n) sfx.

(** [p.with_suffix(sfx)], for a valid [sfx] such as [".png"].  Python
    raises [ValueError] when [p.name] is empty; the paths [glob] yields
    have a non-empty name ending in [.ase], so the model returns [p]
    there. *)
Definition with_suffix (p : Path) (sfx : string) : Path :=
  if (name p =? "")%string then p
  else {| root := root p;
          parts := removelast (parts p) ++ [name_with_suffix (name p) sfx] |}.

(** The path [glob] builds for a directory entry: the entry name is
    appended as one component, unparsed. *)
Definition make_child_relpath (p : Path) (entry : string) : Path :=
  {| root := root p; parts := parts p ++ [entry] |}.

(** [fnmatch] of an entry name against ["*" + lit]: any text, then [lit]. *)
Definition fnmatch_star (lit entry : string) : bool := Str.endswith entry lit.

End Pathlib.

Arguments Pathlib.of_string : simpl never.
Arguments Pathlib.str : simpl never.
Arguments Pathlib.name : simpl never.
Arguments Pathlib.with_suffix : simpl never.

(** ** The operating system, as the script sees it *)

(** What can come out of starting the child process. *)
Inductive Exn : Type :=
| FileNotFoundError                 (* the executable is not on PATH *)
| OtherException (msg : string).    (* any other [Exception], with [str(e)] *)

Inductive RunResult : Type :=
| Exited (returncode : Z) (out err : string)   (* the child ran and exited *)
| Raised (e : Exn).                            (* the child never ran *)

(** [World] is the state of the machine outside the interpreter: the file
    system and whatever decides how the converter behaves.  The queries
    are total: a [stat] that fails for lack of permission, a terminal that
    refuses a character and an interrupt from the keyboard are left out of
    the model.  Entry names are matched as on POSIX, where case counts. *)
Record OS (World : Type) : Type := mkOS {
  stat_exists : World -> Path -> bool;            (* [Path.exists] *)
  stat_is_dir : World -> Path -> bool;            (* [Path.is_dir] *)
  scandir : World -> Path -> list string;         (* entry names, in OS order *)
  spawn : World -> list string -> RunResult * World  (* run a command to completion *)
}.
Arguments stat_exists {World} _ _ _.
Arguments stat_is_dir {World} _ _ _.
Arguments scandir {World} _ _ _.
Arguments spawn {World} _ _ _.

(** ** The program *)

(** One pass through the loop body, as observed from outside: the job, the
    command that was run, what came back, and the world the call left
    behind.  The log of attempts is ghost state: the script does not keep
    it, the proofs read it. *)
Record Attempt (World : Type) : Type := mkAttempt {
  job_source : Path;
  job_destination : Path;
  job_cmd : list string;
  job_result : RunResult;
  job_world : World
}.
Arguments mkAttempt {World} _ _ _ _ _.
Arguments job_source {World} _.
Arguments job_destination {World} _.
Arguments job_cmd {World} _.
Arguments job_result {World} _.
Arguments job_world {World} _.

Record Sys (World : Type) : Type := mkSys {
  world : World;
  stdout : list string;               (* one entry for each [print] *)
  attempts : list (Attempt World)     (* ghost *)
}.
Arguments mkSys {World} _ _ _.
Arguments world {World} _.
Arguments stdout {World} _.
Arguments attempts {World} _.

Section Program.

Context {World : Type} (os : OS World).

Local Abbreviation Sys := (Sys World).

(** The state in which a run starts: nothing printed, nothing attempted. *)
Definition boot (w : World) : Sys :=
  {| world := w; stdout := []; attempts := [] |}.

(** *** A state monad over [Sys] *)

Definition IO (A : Type) : Type := Sys -> A * Sys.

Definition ret {A} (a : A) : IO A := fun s => (a, s).

Definition bind {A B} (c : IO A) (k : A -> IO B) : IO B :=
  fun s => let (a, s') := c s in k a s'.

Notation "x <- c ;; k" := (bind c (fun x => k))
  (at level 61, c at next level, right associativity).
Notation "c ;; k" := (bind c (fun _ => k))
  (at level 61, right associativity).

Definition print (line : string) : IO unit := fun s =>
  (tt, {| world := world s; stdout := stdout s ++ [line];
          attempts := attempts s |}).

Definition path_exists (p : Path) : IO bool := fun s =>
  (stat_exists os (world s) p, s).

Definition path_is_dir (p : Path) : IO bool := fun s =>
  (stat_is_dir os (world s) p, s).

(** [list(p.glob("*" + lit))]: the entries of [p] whose name matches, in
    the order the directory enumeration yields them. *)
Definition glob_star (p : Path) (lit : string) : IO (list Path) := fun s =>
  (map (Pathlib.make_child_relpath p)
       (filter (Pathlib.fnmatch_star lit) (scandir os (world s) p)), s).

(** The child process of [subprocess.run(cmd, capture_output=True,
    text=True, check=True)], run to completion. *)
Definition subprocess_run (cmd : list string) : IO RunResult := fun s =>
  let (r, w') := spawn os (world s) cmd in
  (r, {| world := w'; stdout := stdout s; attempts := attempts s |}).

(** Ghost: log the attempt just made. *)
Definition note (src dst : Path) (cmd : list string) (r : RunResult) : IO unit :=
  fun s =>
  (tt, {| world := world s; stdout := stdout s;
          attempts := attempts s ++
            [{| job_source := src; job_destination := dst; job_cmd := cmd;
                job_result := r; job_world := world s |}] |}).

(** *** [convert_ase_to_png] *)

(** The two counters of the loop. *)
Record Locals : Type := mkLocals {
  success_count : Z;
  error_count : Z
}.

(** How an iteration ends: it falls through to the next file, or the
    function returns from inside the loop (the locals are those at the
    time of the return). *)
Inductive Flow : Type :=
| Next (l : Locals)
| Return (v : bool) (l : Locals).

Definition bump_success (l : Locals) : Locals :=
  {| success_count := success_count l + 1; error_count := error_count l |}.

Definition bump_error (l : Locals) : Locals :=
  {| success_count := success_count l; error_count := error_count l + 1 |}.

Definition aseprite_cmd (ase_file png_file : Path) : list string :=
  [ "aseprite"; "-b"; Pathlib.str ase_file; "--save-as"; Pathlib.str png_file ].

(** The body of [for ase_file in ase_files]. *)
Definition loop_body (ase_file : Path) (l : Locals) : IO Flow :=
  let png_file := Pathlib.with_suffix ase_file ".png" in
  let cmd := aseprite_cmd ase_file png_file in
  (* try: *)
  print (Str.f ["Converting: "; Pathlib.name ase_file; " -> ";
                Pathlib.name png_file]) ;;
  result <- subprocess_run cmd ;;
  note ase_file png_file cmd result ;;
  match result with
  | Exited returncode _ err =>
      if returncode =? 0 then
        created <- path_exists png_file ;;
        if created then
          print (Str.f ["✓ Successfully converted: "; Pathlib.name ase_file]) ;;
          ret (Next (bump_success l))
        else
          print (Str.f ["✗ Failed to create: "; Pathlib.name png_file]) ;;
          ret (Next (bump_error l))
      else
        (* check=True: except subprocess.CalledProcessError as e *)
        print (Str.f ["✗ Error converting "; Pathlib.name ase_file; ":"]) ;;
        print (Str.f ["  Command failed with return code ";
                      Str.of_Z returncode]) ;;
        (if (err =? "")%string then ret tt
         else print (Str.f ["  Error output: "; err])) ;;
        ret (Next (bump_error l))
  | Raised FileNotFoundError =>
      print "✗ Error: 'aseprite.exe' not found in PATH." ;;
      print "  Make sure Aseprite is installed and added to your system PATH," ;;
      print "  or modify the script to use the full path to aseprite.exe" ;;
      ret (Return false l)
  | Raised (OtherException e) =>
      print (Str.f ["✗ Unexpected error converting "; Pathlib.name ase_file;
                    ": "; e]) ;;
      ret (Next (bump_error l))
  end.

Fixpoint for_loop (ase_files : list Path) (l : Locals) : IO Flow :=
  match ase_files with
  | [] => ret (Next l)
  | ase_file :: rest =>
      fl <- loop_body ase_file l ;;
      match fl with
      | Next l' => for_loop rest l'
      | Return v l' => ret (Return v l')
      end
  end.

Definition newline : string := String "010" EmptyString.

(** The summary printed after the loop. *)
Definition print_summary (l : Locals) : IO unit :=
  print (Str.f [newline; "Conversion complete!"]) ;;
  print (Str.f ["Successfully converted: "; Str.of_Z (success_count l);
                " files"]) ;;
  if 0 <? error_count l then
    print (Str.f ["Failed conversions: "; Str.of_Z (error_count l); " files"])
  else ret tt.

Definition convert_ase_to_png (assets_dir : string) : IO bool :=
  let assets_path := Pathlib.of_string assets_dir in
  e <- path_exists assets_path ;;
  if negb e then
    print (Str.f ["Error: Directory '"; assets_dir; "' does not exist."]) ;;
    ret false
  else
  d <- path_is_dir assets_path ;;
  if negb d then
    print (Str.f ["Error: '"; assets_dir; "' is not a directory."]) ;;
    ret false
  else
  ase_files <- glob_star assets_path ".ase" ;;
  match ase_files with
  | [] =>
      print (Str.f ["No .ase files found in '"; assets_dir; "'"]) ;;
      ret true
  | _ :: _ =>
      print (Str.f ["Found "; Str.of_Z (Z.of_nat (List.length ase_files));
                    " .ase file(s) to convert..."]) ;;
      fl <- for_loop ase_files {| success_count := 0; error_count := 0 |} ;;
      match fl with
      | Return v _ => ret v
      | Next l =>
          print_summary l ;;
          ret (error_count l =? 0)
      end
  end.

(** *** [main] *)

(** [sys.argv[1]] when there is one, ["./assets"] otherwise. *)
Definition assets_directory (argv : list string) : string :=
  match argv with
  | _ :: dir :: _ => dir
  | _ => "./assets"
  end.

(** [main] ends in [sys.exit]: its value is the exit code. *)
Definition main (argv : list string) : IO Z :=
  let dir := assets_directory argv in
  print (Str.f ["Converting .ase files in: "; dir]) ;;
  print (Str.mul "-" 50) ;;
  success <- convert_ase_to_png dir ;;
  if success then
    print "All conversions completed successfully!" ;;
    ret 0
  else
    print "Some conversions failed. Please check the errors above." ;;
    ret 1.

(** A call of [convert_ase_to_png] and a run of the script, from a world
    in which nothing was printed or attempted yet. *)
Definition convert_in (w : World) (assets_dir : string) : bool * Sys :=
  convert_ase_to_png assets_dir (boot w).

Definition run_main (w : World) (argv : list string) : Z * Sys :=
  main argv (boot w).

End Program.

(** ** The summary of a run, read off the log (from the specification) *)

(** The classification of one attempt, following the specification's
    words: exit code zero and destination present is a success; exit code
    zero and destination missing, a non-zero exit code, or an unexpected
    fault is a failure of that file; an executable that cannot be located
    is fatal for the batch. *)
Inductive Outcome : Type :=
| Success
| MissingOutput
| ToolFailure (code : Z) (err : string)
| UnexpectedFault (msg : string)
| ToolUnavailable.

Section Summary.

Context {World : Type} (os : OS World).

Definition classify (a : Attempt World) : Outcome :=
  match job_result a with
  | Exited code _ err =>
      if code =? 0 then
        if stat_exists os (job_world a) (job_destination a)
        then Success else MissingOutput
      else ToolFailure code err
  | Raised FileNotFoundError => ToolUnavailable
  | Raised (OtherException msg) => UnexpectedFault msg
  end.

Definition is_success (o : Outcome) : bool :=
  match o with Success => true | _ => false end.

Definition is_failure (o : Outcome) : bool :=
  match o with
  | MissingOutput | ToolFailure _ _ | UnexpectedFault _ => true
  | Success | ToolUnavailable => false
  end.

Definition is_fatal (o : Outcome) : bool :=
  match o with ToolUnavailable => true | _ => false end.

Definition count (p : Outcome -> bool) (log : list (Attempt World)) : Z :=
  Z.of_nat (List.length (filter (fun a => p (classify a)) log)).

(** The three numbers of the specification's ConversionSummary. *)
Definition attempted (log : list (Attempt World)) : Z := Z.of_nat (List.length log).
Definition succeeded (log : list (Attempt World)) : Z := count is_success log.
Definition failed (log : list (Attempt World)) : Z := count is_failure log.

(** The run was cut short by the missing executable. *)
Definition aborted (log : list (Attempt World)) : bool :=
  existsb (fun a => is_fatal (classify a)) log.

End Summary.

(** ** A small concrete machine, to run the model on *)

Module Toy.

(** One directory, ["assets"], with the entries [listing]; [present] are
    the files that exist, by their path text.  The converter can be
    started [installed] more times, after which it is gone from PATH; it
    exits with code 2 on the sources in [failing], exits with 0 and
    writes nothing on those in [silent], and otherwise writes the
    destination and exits with 0. *)
Record World : Type := mkWorld {
  listing : list string;
  present : list string;
  installed : nat;
  failing : list string;
  silent : list string
}.

Definition mem (x : string) (l : list string) : bool :=
  existsb (String.eqb x) l.

Definition exists_ (w : World) (p : Path) : bool :=
  (Pathlib.str p =? "assets")%string || mem (Pathlib.str p) (present w).

Definition is_dir (w : World) (p : Path) : bool :=
  (Pathlib.str p =? "assets")%string.

Definition entries (w : World) (p : Path) : list string :=
  if is_dir w p then listing w else [].

Definition started (w : World) (written : list string) : World :=
  {| listing := listing w; present := written ++ present w;
     installed := pred (installed w); failing := failing w;
     silent := silent w |}.

Definition run (w : World) (cmd : list string) : RunResult * World :=
  match cmd with
  | [_; _; src; _; dst] =>
      if (installed w =? 0)%nat then (Raised FileNotFoundError, w)
      else if mem src (failing w) then (Exited 2 "" "boom", started w [])
      else if mem src (silent w) then (Exited 0 "" "", started w [])
      else (Exited 0 "" "", started w [dst])
  | _ => (Raised (OtherException "usage"), w)
  end.

Definition os : OS World :=
  {| stat_exists := exists_; stat_is_dir := is_dir;
     scandir := entries; spawn := run |}.

(** Three sources, the second of which the converter rejects. *)
Definition w_one_bad : World :=
  {| listing := ["a.ase"; "notes.txt"; "b.ase"; "c.ase"]; present := [];
     installed := 9; failing := ["assets/b.ase"]; silent := [] |}.

(** The converter is gone after its first run. *)
Definition w_tool_vanishes : World :=
  {| listing := ["a.ase"; "b.ase"; "c.ase"]; present := [];
     installed := 1; failing := []; silent := [] |}.

(** The converter is not installed. *)
Definition w_no_tool : World :=
  {| listing := ["a.ase"; "b.ase"]; present := [];
     installed := 0; failing := []; silent := [] |}.

(** The converter exits with 0 on [a.ase] and writes nothing; [a.png] is
    there already in [w_stale], and is not in [w_silent]. *)
Definition w_stale : World :=
  {| listing := ["a.ase"]; present := ["assets/a.png"];
     installed := 9; failing := []; silent := ["assets/a.ase"] |}.

Definition w_silent : World :=
  {| listing := ["a.ase"]; present := [];
     installed := 9; failing := []; silent := ["assets/a.ase"] |}.

(** No source at all, and a source named [.ase]. *)
Definition w_empty : World :=
  {| listing := ["readme.md"]; present := [];
     installed := 9; failing := []; silent := [] |}.

Definition w_dotfile : World :=
  {| listing := [".ase"]; present := [];
     installed := 9; failing := []; silent := [] |}.

(** Paths and attempts to name in the examples. *)
Definition assets (entry : string) : Path :=
  Pathlib.make_child_relpath (Pathlib.of_string "assets") entry.

Definition no_attempt : Attempt World :=
  {| job_source := assets ""; job_destination := assets "";
     job_cmd := []; job_result := Raised (OtherException "");
     job_world := w_empty |}.

Definition log_of (w : World) : list (Attempt World) :=
  attempts (snd (convert_in os w "assets")).

End Toy.

(** ** The run, written out *)

Section Unfolded.

Context {World : Type} (os : OS World).

(** The source files [convert_ase_to_png] discovers in [assets_dir]. *)
Definition discovered (w : World) (assets_dir : string) : list Path :=
  fst (glob_star os (Pathlib.of_string assets_dir) ".ase" (boot w)).

Definition destination (ase_file : Path) : Path :=
  Pathlib.with_suffix ase_file ".png".

(** The attempt the loop body makes on [ase_file] in world [w]. *)
Definition attempt_of (ase_file : Path) (w : World) : Attempt World :=
  let cmd := aseprite_cmd ase_file (destination ase_file) in
  let (r, w') := spawn os w cmd in
  {| job_source := ase_file; job_destination := destination ase_file;
     job_cmd := cmd; job_result := r; job_world := w' |}.

(** What the loop body does next, by the outcome of the attempt. *)
Definition flow_of (o : Outcome) (l : Locals) : Flow :=
  match o with
  | Success => Next (bump_success l)
  | MissingOutput | ToolFailure _ _ | UnexpectedFault _ => Next (bump_error l)
  | ToolUnavailable => Return false l
  end.

(** What the loop body prints after the [Converting:] line. *)
Definition verdict (a : Attempt World) : list string :=
  let src := Pathlib.name (job_source a) in
  let dst := Pathlib.name (job_destination a) in
  match classify os a with
  | Success => [Str.f ["✓ Successfully converted: "; src]]
  | MissingOutput => [Str.f ["✗ Failed to create: "; dst]]
  | ToolFailure code err =>
      [Str.f ["✗ Error converting "; src; ":"];
       Str.f ["  Command failed with return code "; Str.of_Z code]]
      ++ (if (err =? "")%string then []
          else [Str.f ["  Error output: "; err]])
  | UnexpectedFault msg =>
      [Str.f ["✗ Unexpected error converting "; src; ": "; msg]]
  | ToolUnavailable =>
      ["✗ Error: 'aseprite.exe' not found in PATH.";
       "  Make sure Aseprite is installed and added to your system PATH,";
       "  or modify the script to use the full path to aseprite.exe"]
  end.

Definition report (a : Attempt World) : list string :=
  Str.f ["Converting: "; Pathlib.name (job_source a); " -> ";
         Pathlib.name (job_destination a)] :: verdict a.

(** The attempts of the loop over [files] from world [w]: one for each
    file, up to and including the first that is fatal. *)
Fixpoint trace (files : list Path) (w : World) : list (Attempt World) :=
  match files with
  | [] => []
  | f :: rest =>
      let a := attempt_of f w in
      a :: (if is_fatal (classify os a) then [] else trace rest (job_world a))
  end.

Definition transcript (log : list (Attempt World)) : list string :=
  flat_map report log.

Definition zero : Locals := {| success_count := 0; error_count := 0 |}.

Definition tally (l : Locals) (log : list (Attempt World)) : Locals :=
  {| success_count := success_count l + succeeded os log;
     error_count := error_count l + failed os log |}.

Definition last_world (w : World) (log : list (Attempt World)) : World :=
  last (map job_world log) w.

(** The lines of the summary, for given counters. *)
Definition summary_lines (l : Locals) : list string :=
  [Str.f [newline; "Conversion complete!"];
   Str.f ["Successfully converted: "; Str.of_Z (success_count l); " files"]]
  ++ (if 0 <? error_count l
      then [Str.f ["Failed conversions: "; Str.of_Z (error_count l); " files"]]
      else []).

(** The line printed before the loop, and the lines [main] prints around
    the call. *)
Definition found_line (files : list Path) : string :=
  Str.f ["Found "; Str.of_Z (Z.of_nat (List.length files));
         " .ase file(s) to convert..."].

Definition banner (dir : string) : list string :=
  [Str.f ["Converting .ase files in: "; dir]; Str.mul "-" 50].

Definition farewell (success : bool) : string :=
  if success then "All conversions completed successfully!"
  else "Some conversions failed. Please check the errors above.".

(** A line that reports a count of the summary. *)
Definition count_line (line : string) : Prop :=
  exists n : Z,
    line = Str.f ["Successfully converted: "; Str.of_Z n; " files"] \/
    line = Str.f ["Failed conversions: "; Str.of_Z n; " files"].

Definition summary_emitted (out : list string) : Prop :=
  exists line, In line out /\ count_line line.

(** How a count line starts: with [S], or with [Fa]. *)
Definition count_prefix (line : string) : bool :=
  match line with
  | String c1 (String c2 _) =>
      Ascii.eqb c1 "S" || (Ascii.eqb c1 "F" && Ascii.eqb c2 "a")
  | _ => false
  end.

(** The lines printed when the executable is missing. *)
Definition abort_lines : list string :=
  ["✗ Error: 'aseprite.exe' not found in PATH.";
   "  Make sure Aseprite is installed and added to your system PATH,";
   "  or modify the script to use the full path to aseprite.exe"].

(** The counters when an iteration, or the loop, ends. *)
Definition locals_of (fl : Flow) : Locals :=
  match fl with Next l => l | Return _ l => l end.

(** The destination takes the source's name with [.ase] replaced by
    [.png]: the claim about destinations, as the specification words
    it. *)
Definition replaces_extension (ase_file : Path) : Prop :=
  exists base,
    Pathlib.name ase_file = String.append base ".ase" /\
    Pathlib.name (destination ase_file) = String.append base ".png".

(** Each call of the converter starts in the world the call before it
    left: between two calls nothing else changes the world. *)
Fixpoint chained (w : World) (log : list (Attempt World)) : Prop :=
  match log with
  | [] => True
  | a :: rest =>
      spawn os w (job_cmd a) = (job_result a, job_world a)
      /\ chained (job_world a) rest
  end.




(** What the loop body is about to do with one source: its job. *)
Definition well_formed_job (a : Attempt World) : Prop :=
  job_destination a = Pathlib.with_suffix (job_source a) ".png"
  /\ job_cmd a = ["aseprite"; "-b"; Pathlib.str (job_source a); "--save-as";
                  Pathlib.str (job_destination a)].

End Unfolded.

(** ** A machine on which the converter cannot be started *)

Module Denied.

(** The directory ["assets"] holds [a.ase] and [b.ase]; starting the
    converter raises [PermissionError] every time. *)
Definition os : OS unit :=
  {| stat_exists := fun _ p => (Pathlib.str p =? "assets")%string;
     stat_is_dir := fun _ p => (Pathlib.str p =? "assets")%string;
     scandir := fun _ _ => ["a.ase"; "b.ase"];
     spawn := fun _ _ =>
       (Raised (OtherException "[Errno 13] Permission denied: 'aseprite'"),
        tt) |}.

End Denied.

(** ** Strings and paths: lemmas *)

Section StringFacts.

Lemma length_append (x y : string) :
  String.length (String.append x y) = (String.length x + String.length y)%nat.
Proof. induction x as [|a x IH]; simpl; [reflexivity | now rewrite IH]. Qed.

Lemma substring_all (s : string) : substring 0 (String.length s) s = s.
Proof. induction s as [|a s IH]; simpl; [reflexivity | now rewrite IH]. Qed.

Lemma substring_zero (n : nat) (s : string) : substring n 0 s = "".
Proof.
  revert n; induction s as [|a s IH]; intros [|n]; simpl; auto.
Qed.

Lemma substring_split (s : string) (k : nat) :
  (k <= String.length s)%nat ->
  s = String.append (substring 0 k s) (substring k (String.length s - k) s).
Proof.
  revert k; induction s as [|a s IH]; intros k Hk.
  - destruct k; reflexivity.
  - destruct k as [|k]; simpl.
    + now rewrite substring_all.
    + simpl in Hk. rewrite <- IH by lia. reflexivity.
Qed.

Lemma take_append (x y : string) :
  Str.take (String.length x) (String.append x y) = x.
Proof.
  unfold Str.take. induction x as [|a x IH]; simpl.
  - apply substring_zero.
  - now rewrite IH.
Qed.

Lemma drop_append (x y : string) :
  Str.drop (String.length x) (String.append x y) = y.
Proof.
  unfold Str.drop. rewrite length_append.
  replace (String.length x + String.length y - String.length x)%nat
    with (String.length y) by lia.
  induction x as [|a x IH]; simpl; [apply substring_all | exact IH].
Qed.

(** A name that matches [*lit] is some text followed by [lit]. *)
Lemma endswith_inv (s sfx : string) :
  Str.endswith s sfx = true ->
  exists base, s = String.append base sfx.
Proof.
  unfold Str.endswith. intros H.
  apply andb_true_iff in H. destruct H as [Hle Heq].
  apply Nat.leb_le in Hle. apply String.eqb_eq in Heq.
  exists (substring 0 (String.length s - String.length sfx) s).
  pose proof (substring_split s (String.length s - String.length sfx)) as E.
  replace (String.length s - (String.length s - String.length sfx))%nat
    with (String.length sfx) in E by lia.
  rewrite Heq in E. apply E. lia.
Qed.

Lemma endswith_append (base sfx : string) :
  Str.endswith (String.append base sfx) sfx = true.
Proof.
  unfold Str.endswith. rewrite length_append.
  apply andb_true_iff. split.
  - apply Nat.leb_le. lia.
  - apply String.eqb_eq.
    replace (String.length base + String.length sfx - String.length sfx)%nat
      with (String.length base) by lia.
    pose proof (drop_append base sfx) as H. unfold Str.drop in H.
    rewrite length_append in H.
    replace (String.length base + String.length sfx - String.length base)%nat
      with (String.length sfx) in H by lia.
    exact H.
Qed.

(** The last dot of [x.e], for an extension [e] without a dot. *)
Lemma rfind_dot_append (x e : string) :
  Str.rfind "." e = None ->
  Str.rfind "." (String.append x (String "." e)) = Some (String.length x).
Proof.
  intros He. induction x as [|a x IH]; simpl.
  - now rewrite He.
  - now rewrite IH.
Qed.

End StringFacts.

Section PathFacts.

Lemma name_suffix_ase (base : string) :
  Pathlib.name_suffix (String.append base ".ase")
  = if (base =? "")%string then "" else ".ase".
Proof.
  unfold Pathlib.name_suffix.
  rewrite (rfind_dot_append base "ase") by reflexivity.
  destruct base as [|a base]; [reflexivity|].
  replace (String a base =? "")%string with false by reflexivity.
  replace (0 <? String.length (String a base))%nat with true by reflexivity.
  replace (S (String.length (String a base))
           <? String.length (String.append (String a base) ".ase"))%nat
    with true.
  - simpl andb. cbv iota. apply drop_append.
  - symmetry. apply Nat.ltb_lt. rewrite length_append. simpl. lia.
Qed.

Lemma name_stem_ase (base : string) :
  Pathlib.name_stem (String.append base ".ase")
  = if (base =? "")%string then ".ase" else base.
Proof.
  unfold Pathlib.name_stem. rewrite name_suffix_ase.
  destruct base as [|a base]; [reflexivity|].
  replace (String a base =? "")%string with false by reflexivity.
  rewrite length_append.
  replace (String.length (String a base) + String.length ".ase"
           - String.length ".ase")%nat
    with (String.length (String a base)) by lia.
  apply take_append.
Qed.

Lemma name_suffix_png (x : string) :
  x <> "" -> Pathlib.name_suffix (String.append x ".png") = ".png".
Proof.
  intros Hx. unfold Pathlib.name_suffix.
  rewrite (rfind_dot_append x "png") by reflexivity.
  destruct x as [|a x]; [congruence|].
  replace (0 <? String.length (String a x))%nat with true by reflexivity.
  replace (S (String.length (String a x))
           <? String.length (String.append (String a x) ".png"))%nat
    with true.
  - simpl andb. cbv iota. apply drop_append.
  - symmetry. apply Nat.ltb_lt. rewrite length_append. simpl. lia.
Qed.

Lemma name_stem_png (x : string) :
  x <> "" -> Pathlib.name_stem (String.append x ".png") = x.
Proof.
  intros Hx. unfold Pathlib.name_stem. rewrite name_suffix_png by exact Hx.
  rewrite length_append.
  replace (String.length x + String.length ".png" - String.length ".png")%nat
    with (String.length x) by lia.
  apply take_append.
Qed.

Lemma name_child (p : Path) (n : string) :
  Pathlib.name (Pathlib.make_child_relpath p n) = n.
Proof. unfold Pathlib.name. simpl. apply last_last. Qed.

Lemma parent_child (p : Path) (n : string) :
  Pathlib.parent (Pathlib.make_child_relpath p n) = p.
Proof.
  destruct p as [r ps]. unfold Pathlib.parent. simpl.
  now rewrite removelast_last.
Qed.

Lemma with_suffix_child (p : Path) (n sfx : string) :
  n <> "" ->
  Pathlib.with_suffix (Pathlib.make_child_relpath p n) sfx
  = Pathlib.make_child_relpath p (Pathlib.name_with_suffix n sfx).
Proof.
  intros Hn. unfold Pathlib.with_suffix. rewrite name_child.
  destruct (String.eqb_spec n ""); [congruence|].
  unfold Pathlib.make_child_relpath. simpl.
  now rewrite removelast_last.
Qed.

Lemma append_nonempty (x y : string) : y <> "" -> String.append x y <> "".
Proof.
  intros Hy E. apply (f_equal String.length) in E.
  rewrite length_append in E. destruct y; [congruence | simpl in E; lia].
Qed.

End PathFacts.

(** ** The loop, written out *)

Section LoopFacts.

Context {World : Type} (os : OS World).

Lemma loop_body_unfold (f : Path) (l : Locals) (s : Sys World) :
  loop_body os f l s
  = let a := attempt_of os f (world s) in
    (flow_of (classify os a) l,
     {| world := job_world a; stdout := stdout s ++ report os a;
        attempts := attempts s ++ [a] |}).
Proof.
  unfold loop_body, attempt_of, destination, report, verdict, classify,
    bind, print, subprocess_run, note, path_exists, ret.
  cbn. destruct (spawn os (world s) _) as [r w']. cbn.
  destruct r as [rc out err | [ | msg]]; cbn.
  - destruct (rc =? 0); cbn.
    + destruct (stat_exists os w' _); cbn; now rewrite <- !app_assoc.
    + destruct (err =? "")%string; cbn; now rewrite <- !app_assoc.
  - now rewrite <- !app_assoc.
  - now rewrite <- !app_assoc.
Qed.

Lemma last_cons_default {A} (x : A) (l : list A) (d d' : A) :
  last (x :: l) d = last (x :: l) d'.
Proof.
  revert x. induction l as [|y l IH]; intros x; [reflexivity|].
  change (last (y :: l) d = last (y :: l) d'). apply IH.
Qed.

Lemma count_cons (p : Outcome -> bool) (a : Attempt World) log :
  count os p (a :: log) = (if p (classify os a) then 1 else 0) + count os p log.
Proof.
  unfold count. simpl. destruct (p (classify os a)); simpl List.length; lia.
Qed.

Lemma count_app (p : Outcome -> bool) (l1 l2 : list (Attempt World)) :
  count os p (l1 ++ l2) = count os p l1 + count os p l2.
Proof.
  unfold count. rewrite filter_app, length_app. lia.
Qed.

Lemma count_nonneg (p : Outcome -> bool) (log : list (Attempt World)) :
  0 <= count os p log.
Proof. unfold count. lia. Qed.

Lemma tally_cons (l : Locals) (a : Attempt World) log :
  is_fatal (classify os a) = false ->
  match flow_of (classify os a) l with
  | Next l' => tally os l' log = tally os l (a :: log)
  | Return _ _ => False
  end.
Proof.
  unfold tally, succeeded, failed. rewrite !count_cons.
  destruct (classify os a); cbn [flow_of is_fatal is_success is_failure];
    intros H; try discriminate;
    unfold bump_success, bump_error; f_equal;
    cbn [success_count error_count]; lia.
Qed.

Lemma for_loop_unfold (files : list Path) (l : Locals) (s : Sys World) :
  for_loop os files l s
  = let log := trace os files (world s) in
    ((if aborted os log then Return false (tally os l log)
      else Next (tally os l log)),
     {| world := last_world (world s) log;
        stdout := stdout s ++ transcript os log;
        attempts := attempts s ++ log |}).
Proof.
  revert l s. induction files as [|f rest IH]; intros l s.
  - cbn. unfold ret, tally, succeeded, failed, count. cbn.
    rewrite !Z.add_0_r, !app_nil_r. now destruct l, s.
  - cbn [for_loop]. unfold bind. rewrite loop_body_unfold.
    cbn zeta. cbn [trace].
    set (a := attempt_of os f (world s)).
    destruct (is_fatal (classify os a)) eqn:Hf.
    + destruct (classify os a) eqn:Hc; try discriminate.
      cbn [flow_of]. unfold ret, aborted, last_world, transcript.
      cbn [existsb map flat_map last]. rewrite Hc. cbn [is_fatal orb].
      rewrite app_nil_r. f_equal. f_equal.
      unfold tally, succeeded, failed. rewrite !count_cons, Hc. cbn.
      unfold count. cbn. destruct l. cbn. f_equal; lia.
    + pose proof (tally_cons l a (trace os rest (job_world a)) Hf) as Ht.
      destruct (flow_of (classify os a) l) as [l'|v l'] eqn:Hfl;
        [|contradiction].
      rewrite IH. cbn zeta. cbn [world stdout attempts].
      unfold aborted, last_world, transcript.
      cbn [existsb map flat_map]. rewrite Hf. cbn [orb].
      fold (aborted os (trace os rest (job_world a))).
      rewrite Ht, <- !app_assoc. cbn [app].
      f_equal. f_equal.
      destruct (map job_world (trace os rest (job_world a))) eqn:Hm;
        [reflexivity|].
      change (last (w :: l0) (job_world a) = last (w :: l0) (world s)).
      apply last_cons_default.
Qed.

End LoopFacts.

(** ** The log of a loop *)

Section TraceFacts.

Context {World : Type} (os : OS World).

Lemma aborted_cons (a : Attempt World) log :
  aborted os (a :: log) = is_fatal (classify os a) || aborted os log.
Proof. reflexivity. Qed.

Lemma aborted_app (l1 l2 : list (Attempt World)) :
  aborted os (l1 ++ l2) = aborted os l1 || aborted os l2.
Proof. unfold aborted. apply existsb_app. Qed.

(** Exactly one of the three kinds applies to an outcome. *)
Lemma outcome_kinds (o : Outcome) :
  (if is_success o then 1 else 0) + (if is_failure o then 1 else 0)
  + (if is_fatal o then 1 else 0) = 1.
Proof. destruct o; reflexivity. Qed.

Lemma attempted_split (log : list (Attempt World)) :
  attempted log
  = succeeded os log + failed os log + count os is_fatal log.
Proof.
  unfold succeeded, failed. induction log as [|a log IH].
  - reflexivity.
  - rewrite !count_cons. pose proof (outcome_kinds (classify os a)).
    unfold attempted in *. cbn [List.length]. lia.
Qed.

(** A fatal attempt is the last of its loop. *)
Lemma trace_fatal_last (files : list Path) (w : World) pre a post :
  trace os files w = pre ++ a :: post ->
  is_fatal (classify os a) = true -> post = [].
Proof.
  revert w pre. induction files as [|f rest IH]; intros w pre E Ha.
  - destruct pre; discriminate.
  - cbn [trace] in E. destruct pre as [|b pre]; cbn [app] in E.
    + injection E as E1 E2. subst a. rewrite Ha in E2. now symmetry.
    + injection E as E1 E2. subst b.
      destruct (is_fatal (classify os (attempt_of os f w))).
      * destruct pre; discriminate.
      * eapply IH; eauto.
Qed.

Lemma trace_fatal_count (files : list Path) (w : World) :
  count os is_fatal (trace os files w)
  = if aborted os (trace os files w) then 1 else 0.
Proof.
  revert w. induction files as [|f rest IH]; intros w; [reflexivity|].
  cbn [trace]. rewrite count_cons, aborted_cons.
  destruct (is_fatal (classify os (attempt_of os f w))); cbn [orb].
  - reflexivity.
  - rewrite IH. lia.
Qed.

Lemma job_source_attempt_of (f : Path) (w : World) :
  job_source (attempt_of os f w) = f.
Proof. unfold attempt_of. now destruct (spawn os w _). Qed.

Lemma job_destination_attempt_of (f : Path) (w : World) :
  job_destination (attempt_of os f w) = destination f.
Proof. unfold attempt_of. now destruct (spawn os w _). Qed.

(** The files attempted are an initial segment of the files given, and
    all of them when the loop is not cut short. *)
Lemma trace_sources (files : list Path) (w : World) :
  exists skipped,
    files = map job_source (trace os files w) ++ skipped /\
    (aborted os (trace os files w) = false -> skipped = []).
Proof.
  revert w. induction files as [|f rest IH]; intros w.
  - exists []. split; reflexivity.
  - cbn [trace]. rewrite aborted_cons.
    destruct (is_fatal (classify os (attempt_of os f w))) eqn:Hf.
    + exists rest. cbn. rewrite job_source_attempt_of.
      split; [reflexivity | discriminate].
    + destruct (IH (job_world (attempt_of os f w))) as (sk & E & Hsk).
      exists sk. cbn [map app orb]. rewrite job_source_attempt_of.
      split; [now rewrite <- E | exact Hsk].
Qed.

Lemma trace_app (pre rest : list Path) (w : World) :
  trace os (pre ++ rest) w
  = if aborted os (trace os pre w) then trace os pre w
    else trace os pre w ++ trace os rest (last_world w (trace os pre w)).
Proof.
  revert w. induction pre as [|f pre IH]; intros w; [reflexivity|].
  cbn [app trace]. rewrite aborted_cons.
  destruct (is_fatal (classify os (attempt_of os f w))) eqn:Hf; cbn [orb].
  - reflexivity.
  - rewrite IH.
    destruct (aborted os (trace os pre (job_world (attempt_of os f w))));
      [reflexivity|].
    cbn [app]. f_equal. f_equal. unfold last_world. cbn [map].
    destruct (map job_world (trace os pre (job_world (attempt_of os f w))))
      eqn:Hm; [reflexivity|].
    f_equal.
    change (last (w0 :: l) (job_world (attempt_of os f w))
            = last (w0 :: l) w).
    apply last_cons_default.
Qed.

End TraceFacts.

(** ** The function and the script, written out *)

(** Simplify, leaving the loop and its log folded. *)
Ltac calm :=
  cbn -[for_loop print_summary print trace aborted transcript last_world
        tally discovered found_line Z.of_nat List.length].

Section RunFacts.

Context {World : Type} (os : OS World).

Lemma print_summary_unfold (l : Locals) (s : Sys World) :
  print_summary l s
  = (tt, {| world := world s; stdout := stdout s ++ summary_lines l;
            attempts := attempts s |}).
Proof.
  unfold print_summary, summary_lines, bind, print, ret. cbn.
  destruct (0 <? error_count l); cbn; now rewrite <- !app_assoc.
Qed.

Lemma convert_unfold (dir : string) (s : Sys World) :
  convert_ase_to_png os dir s
  = let w := world s in
    let p := Pathlib.of_string dir in
    let say b w' lines log :=
      (b, {| world := w'; stdout := stdout s ++ lines;
             attempts := attempts s ++ log |}) in
    if negb (stat_exists os w p) then
      say false w [Str.f ["Error: Directory '"; dir; "' does not exist."]] []
    else if negb (stat_is_dir os w p) then
      say false w [Str.f ["Error: '"; dir; "' is not a directory."]] []
    else
      match discovered os w dir with
      | [] => say true w [Str.f ["No .ase files found in '"; dir; "'"]] []
      | _ :: _ =>
          let files := discovered os w dir in
          let log := trace os files w in
          let l := tally os zero log in
          if aborted os log then
            say false (last_world w log)
                (found_line files :: transcript os log) log
          else
            say (error_count l =? 0) (last_world w log)
                (found_line files :: transcript os log ++ summary_lines l) log
      end.
Proof.
  unfold convert_ase_to_png, bind, path_exists, path_is_dir, ret.
  calm.
  destruct (stat_exists os (world s) _); calm.
  2: unfold print; cbn; now rewrite app_nil_r.
  destruct (stat_is_dir os (world s) _); calm.
  2: unfold print; cbn; now rewrite app_nil_r.
  unfold discovered, glob_star, found_line.
  cbn -[for_loop print_summary print trace aborted transcript last_world
        tally Z.of_nat List.length].
  destruct (map _ _) as [|f files] eqn:Hd.
  - unfold print; cbn. now rewrite app_nil_r.
  - unfold print at 1. calm.
    rewrite for_loop_unfold. fold zero. calm.
    destruct (aborted os _).
    + now rewrite <- !app_assoc.
    + rewrite print_summary_unfold. calm.
      now rewrite <- !app_assoc.
Qed.

(** A call depends on the state it starts from through the world only:
    what was printed and logged before is kept in front. *)
Lemma convert_frame (dir : string) (s : Sys World) :
  convert_ase_to_png os dir s
  = let r := convert_in os (world s) dir in
    (fst r, {| world := world (snd r);
               stdout := stdout s ++ stdout (snd r);
               attempts := attempts s ++ attempts (snd r) |}).
Proof.
  unfold convert_in. rewrite !convert_unfold. calm.
  destruct (stat_exists os (world s) _); calm; [|reflexivity].
  destruct (stat_is_dir os (world s) _); calm; [|reflexivity].
  destruct (discovered os (world s) dir); calm; [reflexivity|].
  destruct (aborted os _); reflexivity.
Qed.

Lemma main_unfold (w : World) (argv : list string) :
  run_main os w argv
  = let r := convert_in os w (assets_directory argv) in
    ((if fst r then 0 else 1),
     {| world := world (snd r);
        stdout := banner (assets_directory argv) ++ stdout (snd r)
                  ++ [farewell (fst r)];
        attempts := attempts (snd r) |}).
Proof.
  unfold run_main, main, bind, print, ret, banner, farewell, boot.
  cbn -[convert_ase_to_png convert_in].
  rewrite convert_frame. cbn -[convert_ase_to_png convert_in].
  destruct (fst (convert_in os w (assets_directory argv)));
    cbn -[convert_ase_to_png convert_in]; reflexivity.
Qed.

End RunFacts.

(** ** Return value and exit code *)

Section Claims.

Context {World : Type} (os : OS World).

(** The call, when the directory is there and holds at least one source:
    the loop runs, and the function ends either in the abort or in the
    summary. *)
Lemma convert_in_loop (w : World) (dir : string) :
  stat_exists os w (Pathlib.of_string dir) = true ->
  stat_is_dir os w (Pathlib.of_string dir) = true ->
  discovered os w dir <> [] ->
  let files := discovered os w dir in
  let log := trace os files w in
  let l := tally os zero log in
  convert_in os w dir
  = if aborted os log then
      (false, {| world := last_world w log;
                 stdout := found_line files :: transcript os log;
                 attempts := log |})
    else
      (error_count l =? 0,
       {| world := last_world w log;
          stdout := found_line files :: transcript os log ++ summary_lines l;
          attempts := log |}).
Proof.
  intros He Hd Hne. unfold convert_in. rewrite convert_unfold. calm.
  rewrite He, Hd. calm.
  destruct (discovered os w dir) eqn:E; [congruence|]. reflexivity.
Qed.

Lemma convert_in_no_files (w : World) (dir : string) :
  stat_exists os w (Pathlib.of_string dir) = true ->
  stat_is_dir os w (Pathlib.of_string dir) = true ->
  discovered os w dir = [] ->
  convert_in os w dir
  = (true, {| world := w;
              stdout := [Str.f ["No .ase files found in '"; dir; "'"]];
              attempts := [] |}).
Proof.
  intros He Hd Hnil. unfold convert_in. rewrite convert_unfold. calm.
  rewrite He, Hd, Hnil. reflexivity.
Qed.

Lemma tally_zero_error (log : list (Attempt World)) :
  error_count (tally os zero log) = failed os log.
Proof. unfold tally, zero. cbn [error_count]. lia. Qed.

Lemma tally_zero_success (log : list (Attempt World)) :
  success_count (tally os zero log) = succeeded os log.
Proof. unfold tally, zero. cbn [success_count]. lia. Qed.

(** C1.  For a path that is a directory, [convert_ase_to_png] returns
    [True] exactly when no attempt of the run counts as failed and the
    run was not cut short by the missing executable; the script exits
    with 0 when the function returns [True] and with 1 otherwise; a
    directory without sources gives [True] and exit code 0. *)
Theorem success_iff_no_failure_no_abort (w : World) (argv : list string) :
  let dir := assets_directory argv in
  stat_exists os w (Pathlib.of_string dir) = true ->
  stat_is_dir os w (Pathlib.of_string dir) = true ->
  let r := convert_in os w dir in
  (fst r = true <->
     failed os (attempts (snd r)) = 0 /\ aborted os (attempts (snd r)) = false)
  /\ fst (run_main os w argv) = (if fst r then 0 else 1)
  /\ (discovered os w dir = [] -> fst r = true /\ fst (run_main os w argv) = 0).
Proof.
  intros dir He Hd r. rewrite main_unfold. fold dir. fold r.
  cbn [fst].
  destruct (discovered os w dir) as [|f files] eqn:E.
  - subst r. rewrite (convert_in_no_files w dir He Hd E). cbn.
    repeat split; auto.
  - assert (Hne : discovered os w dir <> []) by (rewrite E; discriminate).
    subst r. rewrite (convert_in_loop w dir He Hd Hne). rewrite E.
    destruct (aborted os (trace os (f :: files) w)) eqn:Ha;
      cbn [fst snd attempts].
    + rewrite Ha. split; [|split].
      * split; [discriminate | intros [_ H]; discriminate].
      * reflexivity.
      * discriminate.
    + rewrite Ha, tally_zero_error. split; [|split].
      * rewrite Z.eqb_eq. split; [auto | now intros [H _]].
      * reflexivity.
      * discriminate.
Qed.

(** C5.  For a path that does not exist, or that is not a directory,
    [convert_ase_to_png] returns [False] after printing one line: the
    converter is never run and the world is left as it was. *)
Theorem bad_directory_fails_at_once (w : World) (dir : string) :
  stat_exists os w (Pathlib.of_string dir) = false \/
  stat_is_dir os w (Pathlib.of_string dir) = false ->
  let r := convert_in os w dir in
  fst r = false /\ attempts (snd r) = [] /\ world (snd r) = w
  /\ List.length (stdout (snd r)) = 1%nat.
Proof.
  intros H r. subst r. unfold convert_in. rewrite convert_unfold. calm.
  destruct (stat_exists os w (Pathlib.of_string dir)) eqn:He; calm.
  - destruct H as [H|H]; [discriminate|]. rewrite H. calm. auto.
  - auto.
Qed.

Lemma discovered_nil (w : World) (dir : string) :
  Forall (fun entry => Pathlib.fnmatch_star ".ase" entry = false)
         (scandir os w (Pathlib.of_string dir)) ->
  discovered os w dir = [].
Proof.
  unfold discovered, glob_star. cbn [fst boot world].
  induction (scandir os w (Pathlib.of_string dir)) as [|n ns IH];
    intros H; [reflexivity|].
  inversion H as [|? ? Hn Hns]; subst. cbn [filter]. rewrite Hn. auto.
Qed.

(** C6.  For a directory none of whose entries matches [*.ase],
    [convert_ase_to_png] returns [True]; nothing is attempted, so the
    attempted, succeeded and failed counts of the run are all zero; the
    converter is never run; the one line printed says that no source
    was found. *)
Theorem no_sources_is_success (w : World) (dir : string) :
  stat_exists os w (Pathlib.of_string dir) = true ->
  stat_is_dir os w (Pathlib.of_string dir) = true ->
  Forall (fun entry => Pathlib.fnmatch_star ".ase" entry = false)
         (scandir os w (Pathlib.of_string dir)) ->
  let r := convert_in os w dir in
  fst r = true
  /\ attempts (snd r) = []
  /\ attempted (attempts (snd r)) = 0
  /\ succeeded os (attempts (snd r)) = 0
  /\ failed os (attempts (snd r)) = 0
  /\ world (snd r) = w
  /\ stdout (snd r) = [Str.f ["No .ase files found in '"; dir; "'"]].
Proof.
  intros He Hd Hn r. subst r.
  rewrite (convert_in_no_files w dir He Hd (discovered_nil w dir Hn)).
  cbn. repeat split; reflexivity.
Qed.

(** ** One pass through the loop body *)

Lemma attempt_of_spawn (f : Path) (w w' : World) (r : RunResult) :
  spawn os w (aseprite_cmd f (destination f)) = (r, w') ->
  attempt_of os f w
  = {| job_source := f; job_destination := destination f;
       job_cmd := aseprite_cmd f (destination f);
       job_result := r; job_world := w' |}.
Proof. intros H. unfold attempt_of. now rewrite H. Qed.

(** C2.  When the converter exits with code zero on a source, the loop
    body looks at the destination in the world the call left behind: if
    it exists, [success_count] goes up by one and [error_count] stays;
    if it does not, [error_count] goes up by one, [success_count] stays,
    and the line printed names the destination that is missing. *)
Theorem exit_zero_judged_by_destination
    (f : Path) (l : Locals) (s : Sys World)
    (out err : string) (w' : World) :
  spawn os (world s) (aseprite_cmd f (destination f))
    = (Exited 0 out err, w') ->
  let r := loop_body os f l s in
  world (snd r) = w'
  /\ (stat_exists os w' (destination f) = true ->
      fst r = Next {| success_count := success_count l + 1;
                      error_count := error_count l |})
  /\ (stat_exists os w' (destination f) = false ->
      fst r = Next {| success_count := success_count l;
                      error_count := error_count l + 1 |}
      /\ stdout (snd r)
         = stdout s
           ++ [Str.f ["Converting: "; Pathlib.name f; " -> ";
                      Pathlib.name (destination f)];
               Str.f ["✗ Failed to create: "; Pathlib.name (destination f)]]).
Proof.
  intros Hrun r. subst r. rewrite loop_body_unfold.
  cbv zeta. rewrite (attempt_of_spawn f (world s) w' _ Hrun).
  unfold report, verdict, classify.
  cbn [fst snd world stdout job_result job_world job_destination job_source].
  rewrite Z.eqb_refl.
  split; [reflexivity|]. split; intros Hx; rewrite Hx.
  - reflexivity.
  - split; reflexivity.
Qed.

(** C10.  When the destination is there before the converter runs, and
    the converter exits with code zero having created and removed
    nothing, the source is counted as succeeded.  More generally the
    count depends on the call only through the existence of the
    destination afterwards: two zero exits that agree on it are counted
    alike, whatever else the two calls did. *)
Theorem stale_destination_counts_as_success
    (f : Path) (l : Locals) (s : Sys World)
    (out err : string) (w' : World) :
  stat_exists os (world s) (destination f) = true ->
  spawn os (world s) (aseprite_cmd f (destination f))
    = (Exited 0 out err, w') ->
  (forall p, stat_exists os w' p = stat_exists os (world s) p) ->
  fst (loop_body os f l s)
    = Next {| success_count := success_count l + 1;
              error_count := error_count l |}
  /\ (forall (s2 : Sys World) (out2 err2 : string) (w2' : World),
        spawn os (world s2) (aseprite_cmd f (destination f))
          = (Exited 0 out2 err2, w2') ->
        stat_exists os w2' (destination f)
          = stat_exists os w' (destination f) ->
        fst (loop_body os f l s2) = fst (loop_body os f l s)).
Proof.
  intros Hbefore Hrun Hsame.
  assert (Hafter : stat_exists os w' (destination f) = true)
    by (now rewrite Hsame).
  assert (Hme : fst (loop_body os f l s) = Next (bump_success l)).
  { rewrite loop_body_unfold. cbv zeta.
    rewrite (attempt_of_spawn f (world s) w' _ Hrun).
    unfold classify. cbn [fst job_result job_world job_destination].
    now rewrite Z.eqb_refl, Hafter. }
  split; [exact Hme|].
  intros s2 out2 err2 w2' Hrun2 Hagree.
  rewrite Hme. rewrite loop_body_unfold. cbv zeta.
  rewrite (attempt_of_spawn f (world s2) w2' _ Hrun2).
  unfold classify. cbn [fst job_result job_world job_destination].
  now rewrite Z.eqb_refl, Hagree, Hafter.
Qed.

(** ** Failures that stop the loop and failures that do not *)

Lemma all_success_counts (log : list (Attempt World)) :
  Forall (fun b => classify os b = Success) log ->
  succeeded os log = Z.of_nat (List.length log)
  /\ failed os log = 0 /\ aborted os log = false.
Proof.
  unfold succeeded, failed.
  induction 1 as [|b log Hb Hlog (IH1 & IH2 & IH3)].
  - repeat split.
  - rewrite !count_cons, aborted_cons, Hb, IH1, IH2, IH3.
    cbn [is_success is_failure is_fatal orb List.length].
    repeat split; lia.
Qed.

(** The attempts of a call that made any are those of its loop. *)
Lemma attempts_of_call (w : World) (dir : string) :
  attempts (snd (convert_in os w dir)) <> [] ->
  let files := discovered os w dir in
  let log := trace os files w in
  attempts (snd (convert_in os w dir)) = log
  /\ world (snd (convert_in os w dir)) = last_world w log
  /\ fst (convert_in os w dir)
     = (if aborted os log then false else failed os log =? 0)
  /\ stdout (snd (convert_in os w dir))
     = found_line files :: transcript os log
       ++ (if aborted os log then [] else summary_lines (tally os zero log)).
Proof.
  intros Hne. cbv zeta. revert Hne.
  unfold convert_in. rewrite convert_unfold. calm.
  destruct (stat_exists os w _); calm; [|congruence].
  destruct (stat_is_dir os w _); calm; [|congruence].
  destruct (discovered os w dir); calm; [congruence|].
  rewrite tally_zero_error.
  destruct (aborted os _); calm; intros _; repeat split.
  now rewrite app_nil_r.
Qed.

(** C3.  When exactly one attempt of a run ends in a non-zero exit code
    and every other attempt is a success, every discovered source was
    attempted, in order; one attempt counts as failed and all others as
    succeeded; the summary printed says so; and the function returns
    [False]. *)
Theorem one_failure_does_not_stop_the_batch
    (w : World) (dir : string)
    (pre post : list (Attempt World)) (a : Attempt World) :
  let r := convert_in os w dir in
  attempts (snd r) = pre ++ a :: post ->
  (exists code out err,
      job_result a = Exited code out err /\ code <> 0) ->
  Forall (fun b => classify os b = Success) (pre ++ post) ->
  let n := Z.of_nat (List.length (discovered os w dir)) in
  fst r = false
  /\ map job_source (attempts (snd r)) = discovered os w dir
  /\ attempted (attempts (snd r)) = n
  /\ failed os (attempts (snd r)) = 1
  /\ succeeded os (attempts (snd r)) = n - 1
  /\ exists lines,
       stdout (snd r)
       = lines ++ summary_lines {| success_count := n - 1; error_count := 1 |}.
Proof.
  intros r Hlog (code & out & err & Hres & Hcode) Hok n.
  assert (Hne : attempts (snd r) <> [])
    by (rewrite Hlog; destruct pre; discriminate).
  destruct (attempts_of_call w dir Hne) as (Ht & _ & Hret & Hout).
  fold r in Ht, Hret, Hout.
  assert (Hca : classify os a = ToolFailure code err).
  { unfold classify. rewrite Hres.
    destruct (Z.eqb_spec code 0); [contradiction | reflexivity]. }
  apply Forall_app in Hok. destruct Hok as [Hpre Hpost].
  destruct (all_success_counts pre Hpre) as (Sp & Fp & Ap).
  destruct (all_success_counts post Hpost) as (Sq & Fq & Aq).
  assert (Hab : aborted os (attempts (snd r)) = false).
  { rewrite Hlog, aborted_app, aborted_cons, Ap, Aq, Hca. reflexivity. }
  assert (Hf : failed os (attempts (snd r)) = 1).
  { rewrite Hlog. unfold failed in *.
    rewrite count_app, count_cons, Hca, Fp, Fq. reflexivity. }
  assert (Hs : succeeded os (attempts (snd r))
               = attempted (attempts (snd r)) - 1).
  { rewrite Hlog. unfold succeeded, attempted in *.
    rewrite count_app, count_cons, Hca, Sp, Sq, length_app.
    cbn [is_success List.length]. lia. }
  assert (Hsrc : map job_source (attempts (snd r)) = discovered os w dir).
  { destruct (trace_sources os (discovered os w dir) w) as (sk & E & Hsk).
    rewrite <- Ht in E, Hsk. rewrite (Hsk Hab), app_nil_r in E.
    now symmetry. }
  assert (Hn : attempted (attempts (snd r)) = n).
  { unfold attempted, n. now rewrite <- Hsrc, length_map. }
  rewrite <- Ht in Hret, Hout. rewrite Hab in Hret, Hout.
  repeat split; auto.
  - rewrite Hret, Hf. reflexivity.
  - lia.
  - exists (found_line (discovered os w dir)
            :: transcript os (attempts (snd r))).
    rewrite Hout. cbn [app]. f_equal. f_equal. f_equal.
    unfold tally, zero. cbn [success_count error_count].
    f_equal; lia.
Qed.

(** C4.  When some attempt of a run finds the executable missing, it is
    the last attempt of the run: the sources discovered after it are
    skipped, the world stays as that attempt left it, and the function
    returns [False], whatever the attempts before it were. *)
Theorem missing_executable_aborts_the_batch
    (w : World) (dir : string)
    (pre post : list (Attempt World)) (a : Attempt World) :
  let r := convert_in os w dir in
  attempts (snd r) = pre ++ a :: post ->
  job_result a = Raised FileNotFoundError ->
  post = []
  /\ fst r = false
  /\ world (snd r) = job_world a
  /\ exists skipped,
       discovered os w dir
       = map job_source pre ++ job_source a :: skipped.
Proof.
  intros r Hlog Hres.
  assert (Hne : attempts (snd r) <> [])
    by (rewrite Hlog; destruct pre; discriminate).
  destruct (attempts_of_call w dir Hne) as (Ht & Hw & Hret & _).
  fold r in Ht, Hw, Hret.
  assert (Hca : is_fatal (classify os a) = true)
    by (unfold classify; now rewrite Hres).
  assert (Hpost : post = []).
  { eapply trace_fatal_last; [|exact Hca]. rewrite <- Ht. exact Hlog. }
  subst post.
  assert (Hab : aborted os (attempts (snd r)) = true).
  { rewrite Hlog, aborted_app, aborted_cons, Hca.
    now rewrite orb_true_r. }
  rewrite <- Ht in Hret, Hw. rewrite Hab in Hret.
  repeat split; auto.
  - rewrite Hw, Hlog. unfold last_world. rewrite map_app. cbn [map].
    apply last_last.
  - destruct (trace_sources os (discovered os w dir) w) as (sk & E & _).
    rewrite <- Ht, Hlog, map_app in E. cbn [map] in E.
    rewrite <- app_assoc in E. cbn [app] in E. now exists sk.
Qed.

(** ** The summary *)

Lemma count_line_prefix (line : string) :
  count_line line -> count_prefix line = true.
Proof. intros (n & [E|E]); subst line; reflexivity. Qed.

Lemma report_no_count (a : Attempt World) :
  Forall (fun line => count_prefix line = false) (report os a).
Proof.
  unfold report, verdict.
  destruct (classify os a) as [ | | code err | msg | ];
    repeat (apply Forall_cons; [reflexivity|]);
    try apply Forall_nil.
  destruct (err =? "")%string;
    repeat (apply Forall_cons; [reflexivity|]); apply Forall_nil.
Qed.

Lemma transcript_no_count (log : list (Attempt World)) :
  Forall (fun line => count_prefix line = false) (transcript os log).
Proof.
  unfold transcript. induction log as [|a log IH]; cbn [flat_map].
  - apply Forall_nil.
  - apply Forall_app. split; [apply report_no_count | exact IH].
Qed.

(** A loop that was cut short ends in the attempt that cut it. *)
Lemma aborted_last (files : list Path) (w : World) :
  aborted os (trace os files w) = true ->
  exists pre a,
    trace os files w = pre ++ [a] /\ classify os a = ToolUnavailable.
Proof.
  intros H. unfold aborted in H. apply existsb_exists in H.
  destruct H as (a & Hin & Hfatal).
  apply in_split in Hin. destruct Hin as (pre & post & E).
  pose proof (trace_fatal_last os files w pre a post E Hfatal). subst post.
  exists pre, a. split; [exact E|].
  destruct (classify os a); try discriminate. reflexivity.
Qed.

(** C7, as the code has it.  In a run that discovers at least one
    source and is not cut short, the output is the [Found N] line, the
    lines of the attempts, and then the summary: the completion line,
    the succeeded count, and the failed count when it is not zero; N is
    the number attempted and equals succeeded plus failed.  In a run
    that is cut short by the missing executable, the function returns
    [False] right after the three lines about the executable: no count
    line is printed at all. *)
Theorem summary_printed_unless_aborted (w : World) (dir : string) :
  stat_exists os w (Pathlib.of_string dir) = true ->
  stat_is_dir os w (Pathlib.of_string dir) = true ->
  discovered os w dir <> [] ->
  let r := convert_in os w dir in
  let log := attempts (snd r) in
  let files := discovered os w dir in
  (aborted os log = false ->
     stdout (snd r)
     = found_line files :: transcript os log
       ++ summary_lines {| success_count := succeeded os log;
                           error_count := failed os log |}
     /\ attempted log = Z.of_nat (List.length files)
     /\ attempted log = succeeded os log + failed os log)
  /\ (aborted os log = true ->
        fst r = false
        /\ ~ summary_emitted (stdout (snd r))
        /\ exists lines, stdout (snd r) = lines ++ abort_lines).
Proof.
  intros He Hd Hne r log files. subst r log.
  rewrite (convert_in_loop w dir He Hd Hne). fold files.
  destruct (aborted os (trace os files w)) eqn:Ha;
    cbn [fst snd stdout attempts]; rewrite Ha;
    (split; [|]); intros H; try discriminate.
  - split; [reflexivity|]. split.
    + intros (line & Hin & Hc). apply count_line_prefix in Hc.
      destruct Hin as [<-|Hin]; [discriminate|].
      pose proof (transcript_no_count (trace os files w)) as Hall.
      rewrite Forall_forall in Hall. rewrite (Hall _ Hin) in Hc.
      discriminate.
    + destruct (aborted_last files w Ha) as (pre & a & E & Hca).
      exists (found_line files :: transcript os pre
              ++ [Str.f ["Converting: "; Pathlib.name (job_source a);
                         " -> "; Pathlib.name (job_destination a)]]).
      rewrite E. unfold transcript. rewrite flat_map_app.
      cbn [flat_map]. unfold report at 2, verdict. rewrite Hca.
      rewrite app_nil_r. cbn [app]. f_equal.
      rewrite <- app_assoc. reflexivity.
  - split; [|split].
    + unfold tally, zero. cbn [success_count error_count].
      rewrite !Z.add_0_l. reflexivity.
    + destruct (trace_sources os files w) as (sk & E & Hsk).
      rewrite (Hsk Ha), app_nil_r in E. unfold attempted.
      rewrite E at 2. now rewrite length_map.
    + rewrite (attempted_split os), trace_fatal_count, Ha. lia.
Qed.

(** ** The counters *)

Lemma for_loop_app (pre rest : list Path) (l : Locals) (s : Sys World) :
  for_loop os (pre ++ rest) l s
  = match fst (for_loop os pre l s) with
    | Next l' => for_loop os rest l' (snd (for_loop os pre l s))
    | Return _ _ => for_loop os pre l s
    end.
Proof.
  revert l s. induction pre as [|f pre IH]; intros l s; [reflexivity|].
  cbn [app for_loop]. unfold bind.
  destruct (loop_body os f l s) as [[l'|v l'] s1].
  - apply IH.
  - reflexivity.
Qed.

(** C8, as the code has it.  At every point between two iterations,
    and after the last, both counters are non-negative, they count the
    attempts that succeeded and those that failed, and their sum is the
    number of attempts made, one for each file processed; the loop over
    more files goes on from that point.  Every iteration that falls
    through adds one to exactly one counter.  The attempt that finds
    the executable missing adds to neither: at the return from inside
    the loop the attempts made are one more than succeeded plus
    failed. *)
Theorem counters_match_completed_attempts
    (w : World) (pre rest : list Path) :
  let r := for_loop os pre zero (boot w) in
  let log := attempts (snd r) in
  let l := locals_of (fst r) in
  0 <= success_count l /\ 0 <= error_count l
  /\ success_count l = succeeded os log
  /\ error_count l = failed os log
  /\ match fst r with
     | Next _ =>
         attempted log = success_count l + error_count l
         /\ attempted log = Z.of_nat (List.length pre)
         /\ for_loop os (pre ++ rest) zero (boot w)
            = for_loop os rest l (snd r)
     | Return v _ =>
         v = false
         /\ attempted log = success_count l + error_count l + 1
         /\ for_loop os (pre ++ rest) zero (boot w) = r
     end
  /\ forall (f : Path) (l0 : Locals) (s0 : Sys World),
       match fst (loop_body os f l0 s0) with
       | Next l' =>
           l' = {| success_count := success_count l0 + 1;
                   error_count := error_count l0 |}
           \/ l' = {| success_count := success_count l0;
                      error_count := error_count l0 + 1 |}
       | Return _ l' => l' = l0
       end.
Proof.
  intros r log l.
  assert (Hr : r = for_loop os pre zero (boot w)) by reflexivity.
  assert (Happ := for_loop_app pre rest zero (boot w)). fold r in Happ.
  rewrite for_loop_unfold in Hr. subst l log. clearbody r. subst r.
  revert Happ.
  cbv zeta. cbn [world boot fst snd attempts app stdout].
  set (log := trace os pre w).
  pose proof (count_nonneg os is_success log) as Hs.
  pose proof (count_nonneg os is_failure log) as Hf.
  pose proof (attempted_split os log) as Hsplit.
  pose proof (trace_fatal_count os pre w) as Hfc. fold log in Hfc.
  rewrite Hfc in Hsplit. clear Hfc.
  pose proof (trace_sources os pre w) as (sk & E & Hsk). fold log in E, Hsk.
  fold (succeeded os log) in Hs. fold (failed os log) in Hf.
  assert (Hstep : forall (f : Path) (l0 : Locals) (s0 : Sys World),
             match fst (loop_body os f l0 s0) with
             | Next l' =>
                 l' = {| success_count := success_count l0 + 1;
                         error_count := error_count l0 |}
                 \/ l' = {| success_count := success_count l0;
                            error_count := error_count l0 + 1 |}
             | Return _ l' => l' = l0
             end).
  { intros f l0 s0. rewrite loop_body_unfold. cbv zeta. cbn [fst].
    destruct (classify os _); cbn [flow_of]; auto. }
  destruct (aborted os log) eqn:Ha; cbn [locals_of fst snd];
    rewrite !tally_zero_success, !tally_zero_error; intros Happ;
    (split; [assumption|]); (split; [assumption|]);
    (split; [reflexivity|]); (split; [reflexivity|]);
    (split; [|exact Hstep]).
  - split; [reflexivity|]. split; [lia | exact Happ].
  - split; [lia|]. split; [|exact Happ].
    rewrite (Hsk eq_refl), app_nil_r in E.
    apply (f_equal (@List.length Path)) in E. rewrite length_map in E.
    unfold attempted. now rewrite E.
Qed.

(** ** Destinations *)

Lemma discovered_inv (w : World) (dir : string) (f : Path) :
  In f (discovered os w dir) ->
  exists base,
    f = Pathlib.make_child_relpath (Pathlib.of_string dir)
          (String.append base ".ase").
Proof.
  unfold discovered, glob_star. cbn [fst boot world]. intros H.
  apply in_map_iff in H. destruct H as (n & <- & Hn).
  apply filter_In in Hn. destruct Hn as [_ Hn].
  apply endswith_inv in Hn. destruct Hn as (base & ->). now exists base.
Qed.

(** C9, as the code has it.  The destination of a discovered source
    lies in the same directory, the one that was scanned; it has the
    stem of the source and the suffix [.png].  The source is named
    [base.ase]: when [base] is not empty the destination is named
    [base.png]; the source named [.ase] has no suffix to replace, and
    its destination is named [.ase.png]. *)
Theorem destination_is_png_sibling (w : World) (dir : string) (f : Path) :
  In f (discovered os w dir) ->
  Pathlib.parent f = Pathlib.of_string dir
  /\ Pathlib.parent (destination f) = Pathlib.parent f
  /\ Pathlib.stem (destination f) = Pathlib.stem f
  /\ Pathlib.suffix (destination f) = ".png"
  /\ exists base,
       Pathlib.name f = String.append base ".ase"
       /\ Pathlib.name (destination f)
          = if (base =? "")%string then ".ase.png"
            else String.append base ".png".
Proof.
  intros Hin. destruct (discovered_inv w dir f Hin) as (base & ->).
  set (p := Pathlib.of_string dir).
  assert (Hn : String.append base ".ase" <> "")
    by (apply append_nonempty; discriminate).
  unfold destination. rewrite (with_suffix_child p _ ".png" Hn).
  unfold Pathlib.stem, Pathlib.suffix.
  rewrite !parent_child, !name_child.
  unfold Pathlib.name_with_suffix. rewrite name_stem_ase.
  assert (Hx : (if (base =? "")%string then ".ase" else base) <> "").
  { destruct (String.eqb_spec base ""); [discriminate | assumption]. }
  rewrite (name_stem_png _ Hx), (name_suffix_png _ Hx).
  repeat split. exists base. split; [reflexivity|].
  destruct (base =? "")%string; reflexivity.
Qed.

End Claims.

(** ** The claims on the small machine *)

Section Runs.

Import Toy.

Lemma success_iff_no_failure_no_abort_witness :
  stat_exists os w_one_bad (Pathlib.of_string "assets") = true
  /\ stat_is_dir os w_one_bad (Pathlib.of_string "assets") = true
  /\ let r := convert_in os w_one_bad "assets" in
     (fst r = true <->
        failed os (attempts (snd r)) = 0
        /\ aborted os (attempts (snd r)) = false)
     /\ fst (run_main os w_one_bad ["make-pngs.py"; "assets"])
        = (if fst r then 0 else 1)
     /\ (discovered os w_one_bad "assets" = [] ->
         fst r = true
         /\ fst (run_main os w_one_bad ["make-pngs.py"; "assets"]) = 0).
Proof.
  split; [vm_compute; reflexivity|]. split; [vm_compute; reflexivity|].
  exact (success_iff_no_failure_no_abort os w_one_bad
           ["make-pngs.py"; "assets"] eq_refl eq_refl).
Defined.

Lemma bad_directory_fails_at_once_witness :
  (stat_exists os w_empty (Pathlib.of_string "nowhere") = false \/
   stat_is_dir os w_empty (Pathlib.of_string "nowhere") = false)
  /\ let r := convert_in os w_empty "nowhere" in
     fst r = false /\ attempts (snd r) = [] /\ world (snd r) = w_empty
     /\ List.length (stdout (snd r)) = 1%nat.
Proof.
  split; [left; vm_compute; reflexivity|].
  exact (bad_directory_fails_at_once os w_empty "nowhere"
           (or_introl eq_refl)).
Defined.

Lemma no_sources_is_success_witness :
  stat_exists os w_empty (Pathlib.of_string "assets") = true
  /\ stat_is_dir os w_empty (Pathlib.of_string "assets") = true
  /\ Forall (fun entry => Pathlib.fnmatch_star ".ase" entry = false)
            (scandir os w_empty (Pathlib.of_string "assets"))
  /\ let r := convert_in os w_empty "assets" in
     fst r = true
     /\ attempts (snd r) = []
     /\ attempted (attempts (snd r)) = 0
     /\ succeeded os (attempts (snd r)) = 0
     /\ failed os (attempts (snd r)) = 0
     /\ world (snd r) = w_empty
     /\ stdout (snd r) = [Str.f ["No .ase files found in '"; "assets"; "'"]].
Proof.
  assert (H : Forall (fun entry => Pathlib.fnmatch_star ".ase" entry = false)
                     (scandir os w_empty (Pathlib.of_string "assets")))
    by (vm_compute; repeat constructor).
  split; [vm_compute; reflexivity|]. split; [vm_compute; reflexivity|]. split; [exact H|].
  exact (no_sources_is_success os w_empty "assets" eq_refl eq_refl H).
Defined.

Lemma exit_zero_judged_by_destination_witness :
  spawn os (world (boot w_silent))
        (aseprite_cmd (assets "a.ase") (destination (assets "a.ase")))
    = (Exited 0 "" "", started w_silent [])
  /\ let r := loop_body os (assets "a.ase") zero (boot w_silent) in
     world (snd r) = started w_silent []
     /\ (stat_exists os (started w_silent []) (destination (assets "a.ase"))
         = true ->
         fst r = Next {| success_count := success_count zero + 1;
                         error_count := error_count zero |})
     /\ (stat_exists os (started w_silent []) (destination (assets "a.ase"))
         = false ->
         fst r = Next {| success_count := success_count zero;
                         error_count := error_count zero + 1 |}
         /\ stdout (snd r)
            = stdout (boot w_silent)
              ++ [Str.f ["Converting: "; Pathlib.name (assets "a.ase");
                         " -> ";
                         Pathlib.name (destination (assets "a.ase"))];
                  Str.f ["✗ Failed to create: ";
                         Pathlib.name (destination (assets "a.ase"))]]).
Proof.
  split; [vm_compute; reflexivity|].
  exact (exit_zero_judged_by_destination os (assets "a.ase") zero
           (boot w_silent) "" "" (started w_silent []) eq_refl).
Defined.

Lemma stale_destination_counts_as_success_witness :
  stat_exists os (world (boot w_stale)) (destination (assets "a.ase")) = true
  /\ spawn os (world (boot w_stale))
           (aseprite_cmd (assets "a.ase") (destination (assets "a.ase")))
     = (Exited 0 "" "", started w_stale [])
  /\ (forall p, stat_exists os (started w_stale []) p
                = stat_exists os (world (boot w_stale)) p)
  /\ fst (loop_body os (assets "a.ase") zero (boot w_stale))
     = Next {| success_count := success_count zero + 1;
               error_count := error_count zero |}.
Proof.
  split; [vm_compute; reflexivity|]. split; [vm_compute; reflexivity|].
  split; [intros p; reflexivity|].
  exact (proj1 (stale_destination_counts_as_success os (assets "a.ase") zero
                  (boot w_stale) "" "" (started w_stale [])
                  eq_refl eq_refl (fun p => eq_refl))).
Defined.

Lemma one_failure_does_not_stop_the_batch_witness :
  let pre := firstn 1 (log_of w_one_bad) in
  let a := nth 1 (log_of w_one_bad) no_attempt in
  let post := skipn 2 (log_of w_one_bad) in
  let r := convert_in os w_one_bad "assets" in
  attempts (snd r) = pre ++ a :: post
  /\ (exists code out err, job_result a = Exited code out err /\ code <> 0)
  /\ Forall (fun b => classify os b = Success) (pre ++ post)
  /\ fst r = false
  /\ map job_source (attempts (snd r)) = discovered os w_one_bad "assets"
  /\ attempted (attempts (snd r)) = 3
  /\ failed os (attempts (snd r)) = 1
  /\ succeeded os (attempts (snd r)) = 3 - 1
  /\ exists lines,
       stdout (snd r)
       = lines ++ summary_lines {| success_count := 3 - 1; error_count := 1 |}.
Proof.
  intros pre a post r.
  assert (H1 : attempts (snd r) = pre ++ a :: post) by (vm_compute; reflexivity).
  assert (H2 : exists code out err,
                 job_result a = Exited code out err /\ code <> 0).
  { exists 2, "", "boom". split; [reflexivity | lia]. }
  assert (H3 : Forall (fun b => classify os b = Success) (pre ++ post)).
  { vm_compute. repeat constructor. }
  split; [exact H1|]. split; [exact H2|]. split; [exact H3|].
  exact (one_failure_does_not_stop_the_batch os w_one_bad "assets"
           pre post a H1 H2 H3).
Defined.

Lemma missing_executable_aborts_the_batch_witness :
  let pre := firstn 1 (log_of w_tool_vanishes) in
  let a := nth 1 (log_of w_tool_vanishes) no_attempt in
  let r := convert_in os w_tool_vanishes "assets" in
  attempts (snd r) = pre ++ a :: []
  /\ job_result a = Raised FileNotFoundError
  /\ Forall (fun b => classify os b = Success) pre
  /\ fst r = false
  /\ world (snd r) = job_world a
  /\ exists skipped,
       discovered os w_tool_vanishes "assets"
       = map job_source pre ++ job_source a :: skipped.
Proof.
  intros pre a r.
  assert (H1 : attempts (snd r) = pre ++ a :: [])
    by (vm_compute; reflexivity).
  assert (H2 : job_result a = Raised FileNotFoundError)
    by (vm_compute; reflexivity).
  split; [exact H1|]. split; [exact H2|].
  split; [vm_compute; repeat constructor|].
  exact (proj2 (missing_executable_aborts_the_batch os w_tool_vanishes
                  "assets" pre [] a H1 H2)).
Defined.

Lemma summary_printed_unless_aborted_witness :
  stat_exists os w_one_bad (Pathlib.of_string "assets") = true
  /\ stat_is_dir os w_one_bad (Pathlib.of_string "assets") = true
  /\ discovered os w_one_bad "assets" <> []
  /\ let r := convert_in os w_one_bad "assets" in
     let log := attempts (snd r) in
     let files := discovered os w_one_bad "assets" in
     (aborted os log = false ->
        stdout (snd r)
        = found_line files :: transcript os log
          ++ summary_lines {| success_count := succeeded os log;
                              error_count := failed os log |}
        /\ attempted log = Z.of_nat (List.length files)
        /\ attempted log = succeeded os log + failed os log)
     /\ (aborted os log = true ->
           fst r = false
           /\ ~ summary_emitted (stdout (snd r))
           /\ exists lines, stdout (snd r) = lines ++ abort_lines).
Proof.
  assert (H : discovered os w_one_bad "assets" <> [])
    by (vm_compute; discriminate).
  split; [vm_compute; reflexivity|]. split; [vm_compute; reflexivity|]. split; [exact H|].
  exact (summary_printed_unless_aborted os w_one_bad "assets"
           eq_refl eq_refl H).
Defined.

Lemma destination_is_png_sibling_witness :
  In (assets "a.ase") (discovered os w_one_bad "assets")
  /\ Pathlib.parent (assets "a.ase") = Pathlib.of_string "assets"
  /\ Pathlib.parent (destination (assets "a.ase"))
     = Pathlib.parent (assets "a.ase")
  /\ Pathlib.stem (destination (assets "a.ase")) = Pathlib.stem (assets "a.ase")
  /\ Pathlib.suffix (destination (assets "a.ase")) = ".png"
  /\ exists base,
       Pathlib.name (assets "a.ase") = String.append base ".ase"
       /\ Pathlib.name (destination (assets "a.ase"))
          = if (base =? "")%string then ".ase.png"
            else String.append base ".png".
Proof.
  assert (H : In (assets "a.ase") (discovered os w_one_bad "assets"))
    by (left; vm_compute; reflexivity).
  split; [exact H|].
  exact (destination_is_png_sibling os w_one_bad "assets" (assets "a.ase") H).
Defined.

(** C7, as stated, fails when the executable is missing: two sources
    are discovered, the first attempt finds no converter, and the five
    lines printed hold no count. *)
Lemma abort_prints_no_summary :
  let r := convert_in os w_no_tool "assets" in
  discovered os w_no_tool "assets" <> []
  /\ aborted os (attempts (snd r)) = true
  /\ stdout (snd r)
     = ["Found 2 .ase file(s) to convert...";
        "Converting: a.ase -> a.png";
        "✗ Error: 'aseprite.exe' not found in PATH.";
        "  Make sure Aseprite is installed and added to your system PATH,";
        "  or modify the script to use the full path to aseprite.exe"]
  /\ ~ summary_emitted (stdout (snd r)).
Proof.
  intros r.
  assert (Hout : stdout (snd r)
     = ["Found 2 .ase file(s) to convert...";
        "Converting: a.ase -> a.png";
        "✗ Error: 'aseprite.exe' not found in PATH.";
        "  Make sure Aseprite is installed and added to your system PATH,";
        "  or modify the script to use the full path to aseprite.exe"])
    by (vm_compute; reflexivity).
  split; [vm_compute; discriminate|]. split; [vm_compute; reflexivity|].
  split; [exact Hout|].
  intros (line & Hin & Hc). apply count_line_prefix in Hc.
  rewrite Hout in Hin. cbn [In] in Hin.
  repeat (destruct Hin as [<-|Hin]; [discriminate|]). exact Hin.
Qed.

(** C8, as stated, fails at the return from inside the loop: the
    attempt that finds no converter is made, and neither counter
    moves. *)
Lemma abort_attempt_is_not_counted :
  let r := for_loop os (discovered os w_no_tool "assets") zero
                    (boot w_no_tool) in
  fst r = Return false zero
  /\ attempted (attempts (snd r)) = 1
  /\ attempted (attempts (snd r))
     <> success_count (locals_of (fst r)) + error_count (locals_of (fst r)).
Proof.
  intros r. split; [vm_compute; reflexivity|]. split; [vm_compute; reflexivity|].
  vm_compute. discriminate.
Qed.

(** C9, as stated, fails on a source named [.ase]: it is discovered,
    and its destination is [.ase.png], not [.png]. *)
Lemma dotfile_keeps_its_extension :
  In (assets ".ase") (discovered os w_dotfile "assets")
  /\ Pathlib.name (destination (assets ".ase")) = ".ase.png"
  /\ ~ replaces_extension (assets ".ase").
Proof.
  split; [left; vm_compute; reflexivity|]. split; [vm_compute; reflexivity|].
  intros (base & Hsrc & Hdst).
  destruct base as [|c base].
  - vm_compute in Hdst. discriminate.
  - apply (f_equal String.length) in Hsrc.
    change (Pathlib.name (assets ".ase")) with ".ase" in Hsrc.
    cbn [String.append String.length] in Hsrc.
    rewrite length_append in Hsrc. cbn in Hsrc. lia.
Qed.

End Runs.

(** ** More about the loop body *)

Section Iterations.

Context {World : Type} (os : OS World).

(** X2.  A fault other than the missing executable while starting the
    converter costs the file, not the batch: one line with the message is
    printed, [error_count] goes up by one, and the loop goes on with the
    next file. *)
Theorem unexpected_fault_is_per_file
    (f : Path) (l : Locals) (s : Sys World) (msg : string) (w' : World) :
  spawn os (world s) (aseprite_cmd f (destination f))
    = (Raised (OtherException msg), w') ->
  let r := loop_body os f l s in
  let l' := {| success_count := success_count l;
               error_count := error_count l + 1 |} in
  fst r = Next l'
  /\ world (snd r) = w'
  /\ stdout (snd r)
     = stdout s
       ++ [Str.f ["Converting: "; Pathlib.name f; " -> ";
                  Pathlib.name (destination f)];
           Str.f ["✗ Unexpected error converting "; Pathlib.name f; ": "; msg]]
  /\ forall rest, for_loop os (f :: rest) l s = for_loop os rest l' (snd r).
Proof.
  intros Hrun r l'.
  assert (Hr : r = (Next l',
                    {| world := w';
                       stdout := stdout s
                         ++ [Str.f ["Converting: "; Pathlib.name f; " -> ";
                                    Pathlib.name (destination f)];
                             Str.f ["✗ Unexpected error converting ";
                                    Pathlib.name f; ": "; msg]];
                       attempts := attempts s
                         ++ [attempt_of os f (world s)] |})).
  { subst r. rewrite loop_body_unfold. cbv zeta.
    rewrite (attempt_of_spawn os f (world s) w' _ Hrun).
    unfold report, verdict, classify.
    cbn [job_result job_world job_source job_destination flow_of app].
    reflexivity. }
  repeat split; try (rewrite Hr; reflexivity).
  intros rest. cbn [for_loop]. unfold bind. fold r. rewrite Hr. reflexivity.
Qed.

(** X3.  A non-zero exit code is a failure of that file whether or not
    the destination exists afterwards: the code is printed, the captured
    error text is printed when there is some, [error_count] goes up by
    one, and the loop goes on with the next file. *)
Theorem nonzero_exit_is_reported
    (f : Path) (l : Locals) (s : Sys World)
    (code : Z) (out err : string) (w' : World) :
  spawn os (world s) (aseprite_cmd f (destination f))
    = (Exited code out err, w') ->
  code <> 0 ->
  let r := loop_body os f l s in
  let l' := {| success_count := success_count l;
               error_count := error_count l + 1 |} in
  fst r = Next l'
  /\ world (snd r) = w'
  /\ stdout (snd r)
     = stdout s
       ++ [Str.f ["Converting: "; Pathlib.name f; " -> ";
                  Pathlib.name (destination f)];
           Str.f ["✗ Error converting "; Pathlib.name f; ":"];
           Str.f ["  Command failed with return code "; Str.of_Z code]]
       ++ (if (err =? "")%string then []
           else [Str.f ["  Error output: "; err]])
  /\ forall rest, for_loop os (f :: rest) l s = for_loop os rest l' (snd r).
Proof.
  intros Hrun Hcode r l'.
  assert (Hfl : fst r = Next l'
                /\ world (snd r) = w'
                /\ stdout (snd r)
                   = stdout s
                     ++ [Str.f ["Converting: "; Pathlib.name f; " -> ";
                                Pathlib.name (destination f)];
                         Str.f ["✗ Error converting "; Pathlib.name f; ":"];
                         Str.f ["  Command failed with return code ";
                                Str.of_Z code]]
                     ++ (if (err =? "")%string then []
                         else [Str.f ["  Error output: "; err]])).
  { subst r. rewrite loop_body_unfold. cbv zeta.
    rewrite (attempt_of_spawn os f (world s) w' _ Hrun).
    unfold report, verdict, classify.
    cbn [job_result job_world job_source job_destination fst snd
         world stdout].
    destruct (Z.eqb_spec code 0); [contradiction|].
    cbn [flow_of]. repeat split. }
  destruct Hfl as (H1 & H2 & H3). repeat split; auto.
  intros rest. cbn [for_loop]. unfold bind. fold r.
  destruct r as [fl s1]. cbn [fst snd] in *. now rewrite H1.
Qed.

End Iterations.

(** ** More about a whole run *)

Section Batches.

Context {World : Type} (os : OS World).

Lemma discovered_unfold (w : World) (dir : string) :
  discovered os w dir
  = map (Pathlib.make_child_relpath (Pathlib.of_string dir))
        (filter (Pathlib.fnmatch_star ".ase")
                (scandir os w (Pathlib.of_string dir))).
Proof. reflexivity. Qed.

(** The log of a call is empty, with the world untouched, or it is the
    log of the loop over the sources discovered. *)
Lemma call_log (w : World) (dir : string) :
  let r := convert_in os w dir in
  (attempts (snd r) = [] /\ world (snd r) = w)
  \/ (attempts (snd r) = trace os (discovered os w dir) w
      /\ world (snd r) = last_world w (trace os (discovered os w dir) w)).
Proof.
  cbv zeta. unfold convert_in. rewrite convert_unfold. calm.
  destruct (stat_exists os w _); calm; [|now left].
  destruct (stat_is_dir os w _); calm; [|now left].
  destruct (discovered os w dir); calm; [now left|].
  destruct (aborted os _); calm; now right.
Qed.

Lemma attempt_of_job (f : Path) (w : World) :
  let a := attempt_of os f w in
  job_source a = f
  /\ well_formed_job a
  /\ spawn os w (job_cmd a) = (job_result a, job_world a).
Proof.
  cbv zeta. unfold attempt_of, well_formed_job, destination, aseprite_cmd.
  destruct (spawn os w _) as [r w'] eqn:E.
  cbn [job_source job_destination job_cmd job_result job_world].
  repeat split. exact E.
Qed.

Lemma trace_jobs (files : list Path) (w : World) :
  Forall well_formed_job (trace os files w).
Proof.
  revert w. induction files as [|f rest IH]; intros w; [constructor|].
  cbn [trace]. constructor; [apply attempt_of_job|].
  destruct (is_fatal _); [constructor | apply IH].
Qed.

Lemma trace_chained (files : list Path) (w : World) :
  chained os w (trace os files w).
Proof.
  revert w. induction files as [|f rest IH]; intros w; [exact I|].
  cbn [trace chained]. split; [apply attempt_of_job|].
  destruct (is_fatal _); [exact I | apply IH].
Qed.

Lemma no_failure_all_success (log : list (Attempt World)) :
  failed os log = 0 -> aborted os log = false ->
  Forall (fun b => classify os b = Success) log.
Proof.
  unfold failed. induction log as [|a log IH]; intros Hf Ha; [constructor|].
  rewrite count_cons in Hf. rewrite aborted_cons in Ha.
  apply orb_false_iff in Ha. destruct Ha as [Ha1 Ha2].
  pose proof (count_nonneg os is_failure log) as Hn.
  constructor.
  - destruct (classify os a); cbn [is_failure is_fatal] in Hf, Ha1;
      try discriminate; try lia; reflexivity.
  - apply IH; [|exact Ha2].
    destruct (is_failure (classify os a)); lia.
Qed.

Lemma classify_success_inv (a : Attempt World) :
  classify os a = Success ->
  (exists out err, job_result a = Exited 0 out err)
  /\ stat_exists os (job_world a) (job_destination a) = true.
Proof.
  unfold classify. destruct (job_result a) as [code out err | [|msg]];
    try discriminate.
  destruct (Z.eqb_spec code 0) as [->|]; [|discriminate].
  destruct (stat_exists os _ _); [|discriminate].
  intros _. split; [now exists out, err | reflexivity].
Qed.

(** X1.  When every attempt of a run that made any is a success, the
    function returns [True] and the script exits with 0; every source
    discovered was attempted, in order; the summary gives their number as
    converted and has no line about failures. *)
Theorem all_success_batch (w : World) (dir : string) :
  let r := convert_in os w dir in
  attempts (snd r) <> [] ->
  Forall (fun b => classify os b = Success) (attempts (snd r)) ->
  let n := Z.of_nat (List.length (discovered os w dir)) in
  fst r = true
  /\ map job_source (attempts (snd r)) = discovered os w dir
  /\ succeeded os (attempts (snd r)) = n
  /\ failed os (attempts (snd r)) = 0
  /\ stdout (snd r)
     = found_line (discovered os w dir)
       :: transcript os (attempts (snd r))
       ++ [Str.f [newline; "Conversion complete!"];
           Str.f ["Successfully converted: "; Str.of_Z n; " files"]]
  /\ forall argv, assets_directory argv = dir -> fst (run_main os w argv) = 0.
Proof.
  intros r Hne Hok n.
  destruct (attempts_of_call os w dir Hne) as (Ht & _ & Hret & Hout).
  fold r in Ht, Hret, Hout.
  destruct (all_success_counts os _ Hok) as (Hs & Hf & Ha).
  rewrite <- Ht in Hret, Hout. rewrite Ha, Hf in Hret.
  assert (Hsrc : map job_source (attempts (snd r)) = discovered os w dir).
  { destruct (trace_sources os (discovered os w dir) w) as (sk & E & Hsk).
    rewrite <- Ht in E, Hsk. rewrite (Hsk Ha), app_nil_r in E.
    now symmetry. }
  assert (Hn : succeeded os (attempts (snd r)) = n).
  { rewrite Hs. unfold n. now rewrite <- Hsrc, length_map. }
  split; [exact Hret|]. split; [exact Hsrc|]. split; [exact Hn|].
  split; [exact Hf|]. split.
  - rewrite Hout, Ha. unfold summary_lines.
    rewrite tally_zero_success, tally_zero_error, Hf, Hn. reflexivity.
  - intros argv Hdir. rewrite main_unfold, Hdir. fold r. cbn [fst].
    now rewrite Hret.
Qed.

(** X10.  When the function returns [True], every source discovered was
    handed to the converter, in order, each call exited with code zero,
    and each destination was there right after its call. *)
Theorem success_means_all_converted (w : World) (dir : string) :
  let r := convert_in os w dir in
  fst r = true ->
  stat_exists os w (Pathlib.of_string dir) = true
  /\ stat_is_dir os w (Pathlib.of_string dir) = true
  /\ map job_source (attempts (snd r)) = discovered os w dir
  /\ Forall (fun a =>
               (exists out err, job_result a = Exited 0 out err)
               /\ job_destination a = destination (job_source a)
               /\ stat_exists os (job_world a) (job_destination a) = true)
            (attempts (snd r)).
Proof.
  cbv zeta. unfold convert_in. rewrite convert_unfold. calm.
  destruct (stat_exists os w _); calm; [|discriminate].
  destruct (stat_is_dir os w _); calm; [|discriminate].
  destruct (discovered os w dir) as [|f files] eqn:E; calm.
  - intros _. repeat split. constructor.
  - rewrite <- E.
    destruct (aborted os (trace os (discovered os w dir) w)) eqn:Ha;
      calm; [discriminate|].
    rewrite tally_zero_error. intros Hret. apply Z.eqb_eq in Hret.
    split; [reflexivity|]. split; [reflexivity|]. split.
    + destruct (trace_sources os (discovered os w dir) w) as (sk & Es & Hsk).
      rewrite (Hsk Ha), app_nil_r in Es. now symmetry.
    + pose proof (no_failure_all_success _ Hret Ha) as Hall.
      pose proof (trace_jobs (discovered os w dir) w) as Hjobs.
      rewrite Forall_forall in Hall, Hjobs. apply Forall_forall.
      intros a Hin. destruct (classify_success_inv a (Hall a Hin)) as [H1 H2].
      split; [exact H1|]. split; [|exact H2].
      apply (Hjobs a Hin).
Qed.

(** X4.  Whatever the run, the converter is only ever handed entries of
    the scanned directory whose name ends in [.ase], each as the command
    [aseprite -b <source> --save-as <destination>] with the destination
    derived from the source; the sources attempted are an initial segment
    of the matching entries, in the order of the directory listing. *)
Theorem only_matching_entries_are_converted (w : World) (dir : string) :
  let r := convert_in os w dir in
  let p := Pathlib.of_string dir in
  Forall (fun a =>
            well_formed_job a
            /\ exists entry,
                 In entry (scandir os w p)
                 /\ Str.endswith entry ".ase" = true
                 /\ job_source a = Pathlib.make_child_relpath p entry)
         (attempts (snd r))
  /\ exists skipped,
       map (Pathlib.make_child_relpath p)
           (filter (Pathlib.fnmatch_star ".ase") (scandir os w p))
       = map job_source (attempts (snd r)) ++ skipped.
Proof.
  intros r p. subst p. rewrite <- discovered_unfold.
  destruct (call_log w dir) as [[Ht _]|[Ht _]]; fold r in Ht; rewrite Ht.
  - split; [constructor|]. now exists (discovered os w dir).
  - destruct (trace_sources os (discovered os w dir) w) as (sk & E & _).
    split; [|now exists sk].
    pose proof (trace_jobs (discovered os w dir) w) as Hjobs.
    rewrite Forall_forall in Hjobs. apply Forall_forall. intros a Hin.
    split; [apply (Hjobs a Hin)|].
    assert (Hsrc : In (job_source a) (discovered os w dir)).
    { rewrite E. apply in_or_app. left. now apply in_map. }
    rewrite discovered_unfold in Hsrc. apply in_map_iff in Hsrc.
    destruct Hsrc as (entry & Heq & Hentry).
    apply filter_In in Hentry. destruct Hentry as [Hin' Hmatch].
    exists entry. repeat split; auto.
Qed.

(** X5.  The script changes the world through the converter only: each
    call of the converter starts in the world the call before it left
    (the first in the world the run started in), and the run ends in the
    world its last call left, or in the world it started in when it made
    none. *)
Theorem world_changes_only_through_converter (w : World) (dir : string) :
  let r := convert_in os w dir in
  chained os w (attempts (snd r))
  /\ world (snd r) = last_world w (attempts (snd r)).
Proof.
  intros r.
  destruct (call_log w dir) as [[Ht Hw]|[Ht Hw]]; fold r in Ht, Hw;
    rewrite Ht, Hw.
  - split; [exact I | reflexivity].
  - split; [apply trace_chained | reflexivity].
Qed.

End Batches.

(** ** What is printed *)

Section Output.

Context {World : Type} (os : OS World).








(** X9.  The script prints two header lines, then what the function
    prints, then one closing line, and attempts and changes nothing
    beyond what the function does.  Its exit code is 0 or 1, and it is 0
    exactly when the closing line is the one that announces success. *)
Theorem script_output_frames_the_call (w : World) (argv : list string) :
  let m := run_main os w argv in
  let r := convert_in os w (assets_directory argv) in
  stdout (snd m)
  = [Str.f ["Converting .ase files in: "; assets_directory argv];
     Str.mul "-" 50]
    ++ stdout (snd r)
    ++ [if fst r then "All conversions completed successfully!"
        else "Some conversions failed. Please check the errors above."]
  /\ world (snd m) = world (snd r)
  /\ attempts (snd m) = attempts (snd r)
  /\ (fst m = 0 \/ fst m = 1)
  /\ (fst m = 0 <->
      last (stdout (snd m)) "" = "All conversions completed successfully!").
Proof.
  intros m r. subst m. rewrite main_unfold. fold r.
  cbn [fst snd stdout world attempts].
  split; [reflexivity|]. split; [reflexivity|]. split; [reflexivity|].
  rewrite !app_assoc, last_last. unfold farewell.
  destruct (fst r); split; auto; split; auto; discriminate.
Qed.

End Output.

(** ** More about destinations *)

Section Destinations.

Context {World : Type} (os : OS World).

Lemma append_inv_tail (x y s : string) :
  String.append x s = String.append y s -> x = y.
Proof.
  intros E.
  assert (Hlen : String.length x = String.length y).
  { apply (f_equal String.length) in E. rewrite !length_append in E. lia. }
  rewrite <- (take_append x s), <- (take_append y s), E, Hlen. reflexivity.
Qed.

Lemma png_is_not_ase (x : string) :
  Str.endswith (String.append x ".png") ".ase" = false.
Proof.
  destruct (Str.endswith (String.append x ".png") ".ase") eqn:E;
    [|reflexivity].
  apply endswith_inv in E. destruct E as (base & E).
  assert (Hlen : String.length x = String.length base).
  { apply (f_equal String.length) in E. rewrite !length_append in E.
    cbn in E. lia. }
  pose proof (drop_append x ".png") as D1.
  pose proof (drop_append base ".ase") as D2.
  rewrite E, Hlen, D2 in D1. discriminate.
Qed.

Lemma destination_of_child (p : Path) (base : string) :
  destination (Pathlib.make_child_relpath p (String.append base ".ase"))
  = Pathlib.make_child_relpath p
      (String.append (if (base =? "")%string then ".ase" else base) ".png").
Proof.
  unfold destination.
  rewrite with_suffix_child by (apply append_nonempty; discriminate).
  unfold Pathlib.name_with_suffix. now rewrite name_stem_ase.
Qed.

(** X7.  The destination of a discovered source is never the source
    itself, and its name does not match [*.ase]: what the converter
    writes is not picked up as a source by a later scan. *)
Theorem destination_is_never_a_source (w : World) (dir : string) :
  Forall (fun f =>
            destination f <> f
            /\ Pathlib.fnmatch_star ".ase" (Pathlib.name (destination f))
               = false)
         (discovered os w dir).
Proof.
  apply Forall_forall. intros f Hin.
  destruct (discovered_inv os w dir f Hin) as (base & ->).
  rewrite destination_of_child, name_child.
  unfold Pathlib.fnmatch_star. split; [|apply png_is_not_ase].
  intros E. apply (f_equal Pathlib.name) in E. rewrite !name_child in E.
  pose proof (png_is_not_ase (if (base =? "")%string then ".ase" else base))
    as H.
  rewrite E, endswith_append in H. discriminate.
Qed.

(** X8.  Two discovered sources, neither of them named [.ase], that
    have the same destination are the same source: apart from the file
    named [.ase], no two sources of a run are written to one place. *)
Theorem destinations_are_distinct
    (w : World) (dir : string) (f1 f2 : Path) :
  In f1 (discovered os w dir) ->
  In f2 (discovered os w dir) ->
  Pathlib.name f1 <> ".ase" ->
  Pathlib.name f2 <> ".ase" ->
  destination f1 = destination f2 ->
  f1 = f2.
Proof.
  intros H1 H2 N1 N2 E.
  destruct (discovered_inv os w dir f1 H1) as (b1 & ->).
  destruct (discovered_inv os w dir f2 H2) as (b2 & ->).
  rewrite name_child in N1, N2. rewrite !destination_of_child in E.
  destruct (String.eqb_spec b1 "") as [->|_]; [now contradiction N1|].
  destruct (String.eqb_spec b2 "") as [->|_]; [now contradiction N2|].
  apply (f_equal Pathlib.name) in E. rewrite !name_child in E.
  apply append_inv_tail in E. now subst b2.
Qed.

End Destinations.

(** ** The further properties on the small machines *)

Section MoreRuns.

Lemma unexpected_fault_is_per_file_witness :
  spawn Denied.os (world (boot tt))
        (aseprite_cmd (Toy.assets "a.ase") (destination (Toy.assets "a.ase")))
    = (Raised (OtherException "[Errno 13] Permission denied: 'aseprite'"), tt)
  /\ let r := loop_body Denied.os (Toy.assets "a.ase") zero (boot tt) in
     fst r = Next {| success_count := 0; error_count := 0 + 1 |}
     /\ forall rest,
          for_loop Denied.os (Toy.assets "a.ase" :: rest) zero (boot tt)
          = for_loop Denied.os rest
              {| success_count := 0; error_count := 0 + 1 |} (snd r).
Proof.
  split; [vm_compute; reflexivity|].
  pose proof (unexpected_fault_is_per_file Denied.os (Toy.assets "a.ase")
                zero (boot tt) _ tt eq_refl) as H.
  cbv zeta in H. destruct H as (H1 & _ & _ & H4).
  split; [exact H1 | exact H4].
Defined.

Lemma nonzero_exit_is_reported_witness :
  spawn Toy.os (world (boot Toy.w_one_bad))
        (aseprite_cmd (Toy.assets "b.ase") (destination (Toy.assets "b.ase")))
    = (Exited 2 "" "boom", Toy.started Toy.w_one_bad [])
  /\ 2 <> 0
  /\ let r := loop_body Toy.os (Toy.assets "b.ase") zero
                        (boot Toy.w_one_bad) in
     fst r = Next {| success_count := 0; error_count := 0 + 1 |}
     /\ stdout (snd r)
        = ["Converting: b.ase -> b.png"; "✗ Error converting b.ase:";
           "  Command failed with return code 2"; "  Error output: boom"].
Proof.
  assert (H2 : 2 <> 0) by lia.
  split; [vm_compute; reflexivity|]. split; [exact H2|].
  pose proof (nonzero_exit_is_reported Toy.os (Toy.assets "b.ase") zero
                (boot Toy.w_one_bad) 2 "" "boom"
                (Toy.started Toy.w_one_bad []) eq_refl H2) as H.
  cbv zeta in H. destruct H as (H1 & _ & H3 & _).
  split; [exact H1 | exact H3].
Defined.

Lemma all_success_batch_witness :
  let r := convert_in Toy.os Toy.w_stale "assets" in
  attempts (snd r) <> []
  /\ Forall (fun b => classify Toy.os b = Success) (attempts (snd r))
  /\ fst r = true
  /\ map job_source (attempts (snd r)) = discovered Toy.os Toy.w_stale "assets"
  /\ succeeded Toy.os (attempts (snd r)) = 1
  /\ failed Toy.os (attempts (snd r)) = 0.
Proof.
  intros r.
  assert (H1 : attempts (snd r) <> []) by (vm_compute; discriminate).
  assert (H2 : Forall (fun b => classify Toy.os b = Success)
                      (attempts (snd r)))
    by (vm_compute; repeat constructor).
  split; [exact H1|]. split; [exact H2|].
  pose proof (all_success_batch Toy.os Toy.w_stale "assets" H1 H2) as H.
  cbv zeta in H. destruct H as (A & B & C & D & _).
  split; [exact A|]. split; [exact B|]. split; [exact C | exact D].
Defined.

Lemma success_means_all_converted_witness :
  let r := convert_in Toy.os Toy.w_stale "assets" in
  fst r = true
  /\ map job_source (attempts (snd r)) = discovered Toy.os Toy.w_stale "assets"
  /\ Forall (fun a =>
               (exists out err, job_result a = Exited 0 out err)
               /\ job_destination a = destination (job_source a)
               /\ stat_exists Toy.os (job_world a) (job_destination a) = true)
            (attempts (snd r)).
Proof.
  intros r.
  assert (H1 : fst r = true) by (vm_compute; reflexivity).
  split; [exact H1|].
  pose proof (success_means_all_converted Toy.os Toy.w_stale "assets" H1) as H.
  cbv zeta in H. destruct H as (_ & _ & A & B).
  split; [exact A | exact B].
Defined.

Lemma destinations_are_distinct_witness :
  In (Toy.assets "a.ase") (discovered Toy.os Toy.w_one_bad "assets")
  /\ Pathlib.name (Toy.assets "a.ase") <> ".ase"
  /\ destination (Toy.assets "a.ase") = destination (Toy.assets "a.ase")
  /\ Toy.assets "a.ase" = Toy.assets "a.ase".
Proof.
  assert (H1 : In (Toy.assets "a.ase")
                  (discovered Toy.os Toy.w_one_bad "assets"))
    by (left; vm_compute; reflexivity).
  assert (H2 : Pathlib.name (Toy.assets "a.ase") <> ".ase")
    by (vm_compute; discriminate).
  split; [exact H1|]. split; [exact H2|]. split; [reflexivity|].
  exact (destinations_are_distinct Toy.os Toy.w_one_bad "assets"
           (Toy.assets "a.ase") (Toy.assets "a.ase") H1 H1 H2 H2 eq_refl).
Defined.

End MoreRuns.
